(** * pySim transport links: the APDU send chain

    A shallow embedding of [pySim/transport/__init__.py] (class [LinkBase])
    and [pySim/transport/pcsc.py] (class [PcscSimLink]), and the properties
    of the send chain

      send_apdu_checksw -> send_apdu -> send_apdu_failsafe -> send_apdu_raw.

    Python values are modelled as follows.
    - A [str] is a [string]; the slice [s[a:b]] is [slice a b s], which, like
      Python's, truncates at the end of the string instead of failing.
    - An [int] is a [Z].
    - A call either returns a value or raises: [outcome].
    - A method is a function from the state of the outside world (the card
      reader behind the link) to an outcome, the new state and the list of
      events the call produced, in order ([M]).  Events record each
      invocation of [self.send_apdu_raw] and each [logging.info] line.
    - [self.send_apdu_raw] is dispatched on the instance: the methods of
      [LinkBase] take it as a parameter, and a class fixes it.
    - The interpreter bounds the depth of the call stack.  A method that
      calls itself ([send_apdu_raw] through the dispatch, [send_apdu_failsafe]
      once per retry) and its callers take the number [depth] of frames the
      stack has left when they are called: with none left the call raises
      [RecursionError], otherwise the body runs with one frame fewer.
    - Functions of modules whose source is not part of these files
      ([sw_match], [h2i], [i2h], the smartcard library) are parameters of
      the methods that call them.  Of the library calls only
      [logging.info], which the retry handler makes at every depth of its
      recursion, is given a need of stack. *)

From Stdlib Require Import String Ascii List ZArith Lia Bool Arith.
Import ListNotations.

Local Open Scope string_scope.
Local Open Scope list_scope.

(** ** Python strings *)

Module Py.

(** [s[a:b]] for [0 <= a <= b]. *)
Definition slice (a b : nat) (s : string) : string := substring a (b - a) s.

(** [str.lower] on ASCII text. *)
Definition lower_ascii (c : ascii) : ascii :=
  let n := nat_of_ascii c in
  if (65 <=? n)%nat && (n <=? 90)%nat then ascii_of_nat (n + 32) else c.

Fixpoint lower (s : string) : string :=
  match s with
  | EmptyString => EmptyString
  | String c s' => String (lower_ascii c) (lower s')
  end.

End Py.

(** ** Exceptions, values and outcomes *)

(** The exception classes the two files raise, name or can meet; all of them
    derive from [Exception], so [except Exception] catches each one. *)
Inductive exn : Type :=
| NoCardError
| ReaderError
| ProtocolError
| SwMatchError (sw_actual : option string) (sw_expected : string)
| TypeError
| ValueError
| RecursionError
| CardConnectionException.

(** What a raw transmission can hand back: the documented [(data, sw)] tuple,
    whose status word may be [None], or [None] when a body has no [return]. *)
Inductive pyval : Type :=
| PyNone
| PyPair (data : string) (sw : option string).

Inductive outcome (A : Type) : Type :=
| Return (a : A)
| Raise (e : exn).
Arguments Return {A} a.
Arguments Raise {A} e.

Definition returned {A} (r : outcome A) : bool :=
  match r with Return _ => true | Raise _ => false end.

(** ** Events and the effect monad *)

Inductive event : Type :=
| EvRaw (pdu : string)      (* self.send_apdu_raw(pdu) was invoked *)
| EvLog (msg : string).     (* logging.info(msg) *)

(** The pdus of the raw transmissions of a trace, in order. *)
Fixpoint raw_calls (t : list event) : list string :=
  match t with
  | [] => []
  | EvRaw pdu :: t' => pdu :: raw_calls t'
  | EvLog _ :: t' => raw_calls t'
  end.

Definition result (St A : Type) : Type := (outcome A * St * list event)%type.
Definition M (St A : Type) : Type := St -> result St A.

(** [after t r]: the run [r] happened after the events [t]. *)
Definition after {St A} (t : list event) (r : result St A) : result St A :=
  let '(o, s, t') := r in (o, s, t ++ t').

Definition ret {St A} (a : A) : M St A := fun s => (Return a, s, []).
Definition raise {St A} (e : exn) : M St A := fun s => (Raise e, s, []).

(** A pure computation that may raise, run inside a method. *)
Definition lift {St A} (o : outcome A) : M St A := fun s => (o, s, []).

Definition bind {St A B} (m : M St A) (f : A -> M St B) : M St B :=
  fun s =>
    match m s with
    | (Return a, s1, t1) => after t1 (f a s1)
    | (Raise e, s1, t1) => (Raise e, s1, t1)
    end.

Notation "x <- m ;; k" := (bind m (fun x => k))
  (at level 61, m at next level, right associativity).
Notation "' pat <- m ;; k" := (bind m (fun x => match x with pat => k end))
  (at level 61, pat pattern, m at next level, right associativity).

(** ** class LinkBase *)

Module LinkBase.

Section RawMethod.

(** The state of the reader behind the link. *)
Variable St : Type.

(** [self.send_apdu_raw], as the instance's class resolves it. *)
Variable self_send_apdu_raw : string -> St -> outcome pyval * St.

(** [LinkBase.send_apdu_raw]: the body is the single statement
    [self.send_apdu_raw(pdu)]; its value is dropped and the method falls off
    its end, returning [None]. *)
Definition send_apdu_raw (pdu : string) (s : St) : outcome pyval * St :=
  match self_send_apdu_raw pdu s with
  | (Return _, s1) => (Return PyNone, s1)
  | (Raise e, s1) => (Raise e, s1)
  end.

End RawMethod.

Section Methods.

(** The state of the reader behind the link. *)
Variable St : Type.

(** [self.send_apdu_raw], as the instance's class resolves it, called with
    [depth] frames left on the stack. *)
Variable self_send_apdu_raw : nat -> string -> St -> outcome pyval * St.

(** The depth of the calls [logging.info] makes below its own frame. *)
Variable log_frames : nat.

(** The call [self.send_apdu_raw(pdu)] seen from a caller with [depth]
    frames left. *)
Definition call_send_apdu_raw (depth : nat) (pdu : string) : M St pyval :=
  fun s =>
    let '(r, s1) := self_send_apdu_raw depth pdu s in (r, s1, [EvRaw pdu]).

(** [data, sw = v]: unpacking [None] raises [TypeError]. *)
Definition unpack2 (v : pyval) : M St (string * option string) :=
  match v with
  | PyPair data sw => ret (data, sw)
  | PyNone => raise TypeError
  end.

(** The [try] block of [send_apdu_failsafe], run with [depth] frames left. *)
Definition try_send_apdu_raw (depth : nat) (pdu : string)
  : M St (string * option string) :=
  v <- call_send_apdu_raw depth pdu ;;
  '(data, sw) <- unpack2 v ;;
  ret (data, sw).

Definition retry_message (pdu : string) : string :=
  ("eception occured when sending apdu " ++ pdu ++ ", retry...")%string.

(** [logging.info(msg)] called with [depth] frames left: its own frame and
    the [log_frames] below it must fit, or the call raises
    [RecursionError] and logs nothing. *)
Definition logging_info (depth : nat) (msg : string) : M St unit :=
  fun s =>
    if (depth <=? log_frames)%nat then (Raise RecursionError, s, [])
    else (Return tt, s, [EvLog msg]).

(** [LinkBase.send_apdu_failsafe], called with [depth] frames left.  The
    retry is a call of the method from inside its own [except] block: each
    retry nests one frame deeper, and what the retry raises, a
    [RecursionError] included, leaves through every frame above it. *)
Fixpoint send_apdu_failsafe (depth : nat) (pdu : string) (retry_attempts : Z)
  (s : St) : result St (string * option string) :=
  match depth with
  | O => (Raise RecursionError, s, [])
  | S d =>
      match try_send_apdu_raw d pdu s with
      | (Return (data, sw), s1, t1) => (Return (data, sw), s1, t1)
      | (Raise e1, s1, t1) =>
          if (retry_attempts >? 0)%Z then
            after t1
              ((_ <- logging_info d (retry_message pdu) ;;
                send_apdu_failsafe d pdu (retry_attempts - 1)) s1)
          else (Raise e1, s1, t1)
      end
  end.

(** [LinkBase.send_apdu], called with [depth] frames left. *)
Definition send_apdu (depth : nat) (pdu : string) (retry_attempts : Z)
  : M St (string * option string) :=
  match depth with
  | O => raise RecursionError
  | S d =>
      '(data, sw) <- send_apdu_failsafe d pdu retry_attempts ;;
      match sw with
      | Some sw' =>
          if (Py.slice 0 2 sw' =? "9f") || (Py.slice 0 2 sw' =? "61") then
            let pdu_gr :=
              (Py.slice 0 2 pdu ++ "c00000" ++ Py.slice 2 4 sw')%string in
            '(data, sw) <- send_apdu_failsafe d pdu_gr retry_attempts ;;
            ret (data, sw)
          else ret (data, sw)
      | None => ret (data, sw)
      end
  end.

(** [pySim.utils.sw_match], imported by the module; its source is not part
    of these files, so the methods take it as a parameter.  It may raise
    (a [None] status word has no [lower]). *)
Variable sw_match : option string -> string -> outcome bool.

(** [LinkBase.send_apdu_checksw], called with [depth] frames left; the
    caller passes [sw], whose default is ["9000"].  [self.send_apdu(pdu)]
    leaves [retry_attempts] at its default [0]. *)
Definition send_apdu_checksw (depth : nat) (pdu : string) (sw : string)
  : M St (string * option string) :=
  match depth with
  | O => raise RecursionError
  | S d =>
      rv <- send_apdu d pdu 0 ;;
      matched <- lift (sw_match (snd rv) sw) ;;
      if negb matched then raise (SwMatchError (snd rv) (Py.lower sw))
      else ret rv
  end.

(** Starting in state [s], successive transmissions of [pdu] fail with the
    exceptions [es] in turn and leave the channel in state [s'].  The first
    is made with [depth] frames left and each next one a frame deeper, as
    the retries of [send_apdu_failsafe] make them.  A transmission fails
    when the [try] block raises: the channel raised, or it returned [None],
    which cannot be unpacked. *)
Inductive failed_attempts (pdu : string)
  : nat -> list exn -> St -> St -> Prop :=
| failed_none depth s : failed_attempts pdu depth [] s s
| failed_more depth e es s s1 s' t :
    try_send_apdu_raw depth pdu s = (Raise e, s1, t) ->
    failed_attempts pdu (Nat.pred depth) es s1 s' ->
    failed_attempts pdu depth (e :: es) s s'.

End Methods.
End LinkBase.

Arguments LinkBase.send_apdu_failsafe : simpl never.
Arguments LinkBase.send_apdu : simpl never.
Arguments LinkBase.send_apdu_checksw : simpl never.

(** ** class PcscSimLink(LinkBase) *)

Module PcscSimLink.
Section Methods.

(** The state of [self._con], the pyscard connection. *)
Variable Conn : Type.

(** [self._con.transmit(apdu)]: response bytes, SW1 and SW2, or an
    exception of the smartcard library. *)
Variable transmit : list Z -> Conn -> outcome (list Z * Z * Z) * Conn.

(** [pySim.utils.h2i] and [i2h]: hex string to byte list and back; their
    source is not part of these files. *)
Variable h2i : string -> outcome (list Z).
Variable i2h : list Z -> string.

(** [PcscSimLink._send_apdu_raw]. *)
Definition _send_apdu_raw (pdu : string) (c : Conn) : outcome pyval * Conn :=
  match h2i pdu with
  | Raise e => (Raise e, c)
  | Return apdu =>
      match transmit apdu c with
      | (Raise e, c1) => (Raise e, c1)
      | (Return (data, sw1, sw2), c1) =>
          let sw := [sw1; sw2] in
          (Return (PyPair (i2h data) (Some (i2h sw))), c1)
      end
  end.

(** [PcscSimLink] defines no method named [send_apdu_raw], so the attribute
    lookup [self.send_apdu_raw] finds [LinkBase.send_apdu_raw], whose body
    calls [self.send_apdu_raw] again.  The interpreter bounds the depth of
    the call stack: with [depth] frames left the innermost call raises
    [RecursionError], which no frame on the way out handles. *)
Fixpoint send_apdu_raw (depth : nat) (pdu : string) (c : Conn)
  : outcome pyval * Conn :=
  match depth with
  | O => (Raise RecursionError, c)
  | S d => LinkBase.send_apdu_raw Conn (send_apdu_raw d) pdu c
  end.

End Methods.
End PcscSimLink.

(** ** Test doubles *)

Module Double.

(** A scripted raw channel: its state is the list of outcomes still to be
    played, one per transmission; past the end of the script the card is
    gone. *)
Definition scripted (pdu : string) (script : list (outcome pyval))
  : outcome pyval * list (outcome pyval) :=
  match script with
  | [] => (Raise NoCardError, [])
  | r :: rest => (r, rest)
  end.

(** The scripted channel as the method of a subclass: the call needs a
    frame. *)
Definition scripted_method (depth : nat) (pdu : string)
  (script : list (outcome pyval)) : outcome pyval * list (outcome pyval) :=
  match depth with
  | O => (Raise RecursionError, script)
  | S _ => scripted pdu script
  end.

(** A connection that answers every command with [data] and status
    [sw1 sw2], counting the transmissions. *)
Definition answering (data : list Z) (sw1 sw2 : Z) (apdu : list Z) (n : nat)
  : outcome (list Z * Z * Z) * nat :=
  (Return (data, sw1, sw2), S n).

(** Modelled from the spec: the status word matcher of section 4.1
    ([pySim.utils.sw_match], whose source is not part of these files).
    Digits are compared one by one, ignoring case; the wildcard digit [?]
    matches anything; words of different lengths do not match. *)
Fixpoint matches (observed pattern : string) : bool :=
  match observed, pattern with
  | EmptyString, EmptyString => true
  | String o observed', String p pattern' =>
      (Ascii.eqb p "?" || Ascii.eqb (Py.lower_ascii o) (Py.lower_ascii p))
      && matches observed' pattern'
  | _, _ => false
  end.

(** The matcher as the guard calls it; a missing status word is a fault. *)
Definition sw_match (observed : option string) (pattern : string)
  : outcome bool :=
  match observed with
  | Some o => Return (matches o pattern)
  | None => Raise TypeError
  end.

(** Modelled from the spec: the hex codecs of section 6 ([pySim.utils.h2i]
    and [i2h], whose sources are not part of these files): a lossless
    encoding of bytes as pairs of hex digits, read without regard to case. *)
Definition hex_value (c : ascii) : option Z :=
  let n := Z.of_nat (nat_of_ascii c) in
  if (48 <=? n)%Z && (n <=? 57)%Z then Some (n - 48)%Z
  else if (97 <=? n)%Z && (n <=? 102)%Z then Some (n - 87)%Z
  else if (65 <=? n)%Z && (n <=? 70)%Z then Some (n - 55)%Z
  else None.

Fixpoint h2i (s : string) : outcome (list Z) :=
  match s with
  | String a (String b rest) =>
      match hex_value a, hex_value b with
      | Some x, Some y =>
          match h2i rest with
          | Return l => Return ((16 * x + y)%Z :: l)
          | Raise e => Raise e
          end
      | _, _ => Raise ValueError
      end
  | _ => Return []
  end.

Definition hex_digit (n : Z) : ascii :=
  ascii_of_nat (Z.to_nat (if (n <? 10)%Z then n + 48 else n + 87)%Z).

Fixpoint i2h (l : list Z) : string :=
  match l with
  | [] => EmptyString
  | x :: l' =>
      String (hex_digit (x / 16)) (String (hex_digit (x mod 16)) (i2h l'))
  end.

End Double.

(** ** class PcscSimLink: the reader and its connection

    The remaining methods of [PcscSimLink] ([__init__], [__del__],
    [wait_for_card], [connect], [get_atr], [disconnect], [reset_card]) drive
    the smartcard library.  Its functions are parameters; a method maps the
    state of the library's world to a result, the new state and the library
    calls it made, in order. *)

Module Pcsc.

(** The exceptions these methods meet: the classes of [exn]
    ([Base CardConnectionException] is the library's), two more classes of
    the library, [IndexError] and [AttributeError]. *)
Inductive exc : Type :=
| Base (e : exn)
| NoCardException
| CardRequestTimeoutException
| IndexError
| AttributeError.

Inductive res (A : Type) : Type :=
| Ok (a : A)
| Err (e : exc).
Arguments Ok {A} a.
Arguments Err {A} e.

Definition is_ok {A} (r : res A) : bool :=
  match r with Ok _ => true | Err _ => false end.

(** [l[i]] on a Python list: a negative index counts from the end. *)
Definition index {A} (l : list A) (i : Z) : res A :=
  let j := if (i <? 0)%Z then (i + Z.of_nat (List.length l))%Z else i in
  if (j <? 0)%Z then Err IndexError
  else match nth_error l (Z.to_nat j) with
       | Some x => Ok x
       | None => Err IndexError
       end.

(** [bytes(l)] on a list of integers: each must be in [range(256)]. *)
Definition bytes (l : list Z) : res (list Z) :=
  if forallb (fun x => (0 <=? x)%Z && (x <? 256)%Z) l then Ok l
  else Err (Base ValueError).

Section Methods.

(** The world of the smartcard library and its objects: readers,
    connections and card requests. *)
Variable W : Type.
Variable Reader : Type.
Variable Con : Type.
Variable Request : Type.

(** [smartcard.System.readers()]. *)
Variable readers : W -> res (list Reader) * W.
(** [reader.createConnection()]. *)
Variable createConnection : Reader -> W -> res Con * W.
(** [con.connect(protocol = p)], [con.disconnect()], [con.getATR()]. *)
Variable con_connect : Con -> option Z -> W -> res unit * W.
Variable con_disconnect : Con -> W -> res unit * W.
Variable con_getATR : Con -> W -> res (list Z) * W.
(** [CardRequest(readers = rs, timeout = t, newcardonly = b)] and
    [cr.waitforcard()], whose card service the caller drops. *)
Variable CardRequest : list Reader -> option Z -> bool -> W -> res Request * W.
Variable waitforcard : Request -> W -> res unit * W.

Inductive call : Type :=
| CallReaders
| CallCreateConnection (r : Reader)
| CallConnect (c : Con) (protocol : option Z)
| CallDisconnect (c : Con)
| CallGetATR (c : Con)
| CallCardRequest (rs : list Reader) (timeout : option Z) (newcardonly : bool)
| CallWaitForCard (cr : Request).

Definition run (A : Type) : Type := (res A * W * list call)%type.
Definition P (A : Type) : Type := W -> run A.

Definition pafter {A} (t : list call) (r : run A) : run A :=
  let '(o, w, t') := r in (o, w, t ++ t').

Definition pret {A} (a : A) : P A := fun w => (Ok a, w, []).
Definition praise {A} (e : exc) : P A := fun w => (Err e, w, []).
Definition plift {A} (r : res A) : P A := fun w => (r, w, []).

Definition pbind {A B} (m : P A) (f : A -> P B) : P B :=
  fun w =>
    match m w with
    | (Ok a, w1, t1) => pafter t1 (f a w1)
    | (Err e, w1, t1) => (Err e, w1, t1)
    end.

(** [try: m  except ...: h]: the handler [h] sees what [m] raised and
    re-raises what none of its clauses names. *)
Definition catch {A} (m : P A) (h : exc -> P A) : P A :=
  fun w =>
    match m w with
    | (Err e, w1, t1) => pafter t1 (h e w1)
    | done => done
    end.

(** A call into the library, recorded. *)
Definition lib {A} (c : call) (op : W -> res A * W) : P A :=
  fun w => let '(r, w1) := op w in (r, w1, [c]).

Notation "x <~ m ;; k" := (pbind m (fun x => k))
  (at level 61, m at next level, right associativity).

(** The attributes [__init__] sets. *)
Record link : Type := Link {
  _protocol : option Z;
  _reader : Reader;
  _con : Con
}.

(** [super().__init__] with the caller's keyword arguments: [LinkBase]
    defines no [__init__], so this is [object.__init__], which takes no
    keyword argument. *)
Definition object_init (kwargs : list string) : P unit :=
  match kwargs with
  | [] => pret tt
  | _ :: _ => praise (Base TypeError)
  end.

(** [PcscSimLink.__init__]. *)
Definition __init__ (reader_number : Z) (protocol : option Z)
  (kwargs : list string) : P link :=
  _ <~ object_init kwargs ;;
  r <~ lib CallReaders readers ;;
  if (reader_number >=? Z.of_nat (List.length r))%Z then praise (Base ReaderError)
  else
    reader <~ plift (index r reader_number) ;;
    con <~ lib (CallCreateConnection reader) (createConnection reader) ;;
    pret (Link protocol reader con).

(** What is left of [__init__] once [readers()] has returned and the reader
    [rd] is picked: the connection is created, and the link is built if
    that returns. *)
Definition init_with (protocol : option Z) (rd : Reader) (w1 : W) : run link :=
  match createConnection rd w1 with
  | (Ok con, w2) =>
      (Ok (Link protocol rd con), w2, [CallReaders; CallCreateConnection rd])
  | (Err e, w2) => (Err e, w2, [CallReaders; CallCreateConnection rd])
  end.

(** The attribute [_con] of the instance [__init__] worked on: set when
    [__init__] returned, missing when it raised, since the assignment is its
    last statement. *)
Definition attr_con (built : res link) : option Con :=
  match built with
  | Ok self => Some (_con self)
  | Err _ => None
  end.

(** [PcscSimLink.__del__], which also runs on an instance whose [__init__]
    raised; [self_con] is the attribute [_con] when it is set.  Looking up a
    missing attribute raises [AttributeError] inside the [try]; the bare
    [except] swallows it as it does whatever [self._con.disconnect()]
    raises. *)
Definition __del__ (self_con : option Con) : P unit :=
  catch (match self_con with
         | Some con => lib (CallDisconnect con) (con_disconnect con)
         | None => praise AttributeError
         end)
        (fun _ => pret tt).

(** [PcscSimLink.disconnect]. *)
Definition disconnect (self : link) : P unit :=
  lib (CallDisconnect (_con self)) (con_disconnect (_con self)).

(** [PcscSimLink.connect]: both the disconnect and the connect are inside
    the [try]. *)
Definition connect (self : link) : P unit :=
  catch (_ <~ disconnect self ;;
         lib (CallConnect (_con self) (_protocol self))
             (con_connect (_con self) (_protocol self)))
        (fun e =>
           match e with
           | Base CardConnectionException => praise (Base ProtocolError)
           | NoCardException => praise (Base NoCardError)
           | _ => praise e
           end).

(** [PcscSimLink.wait_for_card]: only [cr.waitforcard()] is inside the
    [try]. *)
Definition wait_for_card (self : link) (timeout : option Z)
  (newcardonly : bool) : P unit :=
  cr <~ lib (CallCardRequest [_reader self] timeout newcardonly)
            (CardRequest [_reader self] timeout newcardonly) ;;
  _ <~ catch (lib (CallWaitForCard cr) (waitforcard cr))
             (fun e =>
                match e with
                | CardRequestTimeoutException => praise (Base NoCardError)
                | _ => praise e
                end) ;;
  connect self.

(** [PcscSimLink.get_atr]. *)
Definition get_atr (self : link) : P (list Z) :=
  atr <~ lib (CallGetATR (_con self)) (con_getATR (_con self)) ;;
  plift (bytes atr).

(** [PcscSimLink.reset_card]. *)
Definition reset_card (self : link) : P Z :=
  _ <~ disconnect self ;;
  _ <~ connect self ;;
  pret 1%Z.

End Methods.

Arguments CallReaders {Reader Con Request}.
Arguments CallCreateConnection {Reader Con Request} r.
Arguments CallConnect {Reader Con Request} c protocol.
Arguments CallDisconnect {Reader Con Request} c.
Arguments CallGetATR {Reader Con Request} c.
Arguments CallCardRequest {Reader Con Request} rs timeout newcardonly.
Arguments CallWaitForCard {Reader Con Request} cr.
Arguments Link {Reader Con} _ _ _.
Arguments _protocol {Reader Con} l.
Arguments _reader {Reader Con} l.
Arguments _con {Reader Con} l.
Arguments pafter {W Reader Con Request A} t r.

(** *** A library double

    The world is a script: the results the next library calls will have,
    as [None] for a call that returns and [Some e] for one that raises [e];
    past its end every call returns.  Readers are named, the connection of a
    reader carries its name, the request is a unit, the ATR is fixed. *)

Definition step {A} (a : A) (w : list (option exc)) : res A * list (option exc) :=
  match w with
  | [] => (Ok a, [])
  | None :: w' => (Ok a, w')
  | Some e :: w' => (Err e, w')
  end.

Definition d_readers (names : list string) := step names.
Definition d_createConnection (r : string) := step r.
Definition d_connect (c : string) (p : option Z) := step tt.
Definition d_disconnect (c : string) := step tt.
Definition d_getATR (atr : list Z) (c : string) := step atr.
Definition d_CardRequest (rs : list string) (t : option Z) (b : bool) := step tt.
Definition d_waitforcard (cr : unit) := step tt.

End Pcsc.

(** ** Traces of retried sends *)

(** The trace of a failsafe send that retried [m] times: a transmission,
    then a log line and a transmission per retry. *)
Definition retry_trace (pdu : string) (m : nat) : list event :=
  EvRaw pdu
  :: concat (repeat [EvLog (LinkBase.retry_message pdu); EvRaw pdu] m).

(** * Properties *)

(** ** Traces *)

Lemma raw_calls_app (t1 t2 : list event) :
  raw_calls (t1 ++ t2) = raw_calls t1 ++ raw_calls t2.
Proof.
  induction t1 as [|[p|m] t1 IH]; simpl; [reflexivity| |assumption].
  now rewrite IH.
Qed.

Lemma after_nil {St A} (r : result St A) : after [] r = r.
Proof. now destruct r as [[o s] t]. Qed.

Lemma after_after {St A} (t1 t2 : list event) (r : result St A) :
  after t1 (after t2 r) = after (t1 ++ t2) r.
Proof. destruct r as [[o s] t]; simpl. now rewrite app_assoc. Qed.

Lemma repeat_snoc {A} (x : A) (n : nat) : repeat x n ++ [x] = x :: repeat x n.
Proof. induction n as [|n IH]; simpl; [reflexivity|]. now rewrite IH. Qed.

Lemma retry_trace_succ pdu m :
  [EvRaw pdu; EvLog (LinkBase.retry_message pdu)] ++ retry_trace pdu m
  = retry_trace pdu (S m).
Proof. reflexivity. Qed.

Lemma raw_calls_retry_trace pdu m :
  raw_calls (retry_trace pdu m) = repeat pdu (S m).
Proof.
  induction m as [|m IH]; [reflexivity|].
  rewrite <- retry_trace_succ, raw_calls_app, IH. reflexivity.
Qed.

(** ** The retrying sender *)

Section FailsafeFacts.

Variable St : Type.
Variable raw : nat -> string -> St -> outcome pyval * St.
Variable log_frames : nat.

Local Abbreviation try_send_apdu_raw := (LinkBase.try_send_apdu_raw St raw).
Local Abbreviation send_apdu_failsafe :=
  (LinkBase.send_apdu_failsafe St raw log_frames).
Local Abbreviation failed_attempts := (LinkBase.failed_attempts St raw).
Local Abbreviation retry_message := LinkBase.retry_message.

(** The [try] block in terms of what the raw channel does. *)
Lemma try_raw_raises d pdu s e s1 :
  raw d pdu s = (Raise e, s1) ->
  try_send_apdu_raw d pdu s = (Raise e, s1, [EvRaw pdu]).
Proof.
  intros H. unfold LinkBase.try_send_apdu_raw, bind, LinkBase.call_send_apdu_raw.
  now rewrite H.
Qed.

Lemma try_raw_pair d pdu s data sw s1 :
  raw d pdu s = (Return (PyPair data sw), s1) ->
  try_send_apdu_raw d pdu s = (Return (data, sw), s1, [EvRaw pdu]).
Proof.
  intros H. unfold LinkBase.try_send_apdu_raw, bind, LinkBase.call_send_apdu_raw.
  now rewrite H.
Qed.

Lemma try_raw_none d pdu s s1 :
  raw d pdu s = (Return PyNone, s1) ->
  try_send_apdu_raw d pdu s = (Raise TypeError, s1, [EvRaw pdu]).
Proof.
  intros H. unfold LinkBase.try_send_apdu_raw, bind, LinkBase.call_send_apdu_raw.
  now rewrite H.
Qed.

(** Each run of the [try] block is one raw transmission of [pdu]. *)
Lemma try_trace d pdu s : snd (try_send_apdu_raw d pdu s) = [EvRaw pdu].
Proof.
  destruct (raw d pdu s) as [[[|data sw]|e] s1] eqn:H.
  - now rewrite (try_raw_none _ _ _ _ H).
  - now rewrite (try_raw_pair _ _ _ _ _ _ H).
  - now rewrite (try_raw_raises _ _ _ _ _ H).
Qed.

(** The body of [send_apdu_failsafe], one step unfolded. *)
Lemma send_apdu_failsafe_unfold d pdu n s :
  send_apdu_failsafe (S d) pdu n s =
  match try_send_apdu_raw d pdu s with
  | (Return r, s1, t1) => (Return r, s1, t1)
  | (Raise e1, s1, t1) =>
      if (0 <? n)%Z
      then if (d <=? log_frames)%nat
           then (Raise RecursionError, s1, t1)
           else after (t1 ++ [EvLog (retry_message pdu)])
                      (send_apdu_failsafe d pdu (n - 1) s1)
      else (Raise e1, s1, t1)
  end.
Proof.
  unfold LinkBase.send_apdu_failsafe at 1.
  fold (LinkBase.send_apdu_failsafe St raw log_frames).
  destruct (try_send_apdu_raw d pdu s) as [[[[data sw]|e] s1] t1];
    [reflexivity|].
  rewrite Z.gtb_ltb. destruct (0 <? n)%Z; [|reflexivity].
  unfold bind, LinkBase.logging_info.
  destruct (d <=? log_frames)%nat; simpl.
  - now rewrite app_nil_r.
  - destruct (LinkBase.send_apdu_failsafe St raw log_frames d pdu (n - 1) s1)
      as [[o sf] tf].
    simpl. now rewrite <- app_assoc.
Qed.

Lemma failsafe_returns d pdu n s r s1 t1 :
  try_send_apdu_raw d pdu s = (Return r, s1, t1) ->
  send_apdu_failsafe (S d) pdu n s = (Return r, s1, [EvRaw pdu]).
Proof.
  intros H. rewrite send_apdu_failsafe_unfold.
  pose proof (try_trace d pdu s) as Ht. rewrite H in *. simpl in Ht. now subst.
Qed.

Lemma failsafe_gives_up d pdu n s e s1 t1 :
  try_send_apdu_raw d pdu s = (Raise e, s1, t1) ->
  (n <= 0)%Z ->
  send_apdu_failsafe (S d) pdu n s = (Raise e, s1, [EvRaw pdu]).
Proof.
  intros H Hn. rewrite send_apdu_failsafe_unfold.
  pose proof (try_trace d pdu s) as Ht. rewrite H in *. simpl in Ht. subst.
  destruct (Z.ltb_spec 0 n); [lia|reflexivity].
Qed.

(** A retry with room on the stack for the log line: the next attempt runs
    one frame deeper. *)
Lemma failsafe_retries d pdu n s e s1 t1 :
  try_send_apdu_raw d pdu s = (Raise e, s1, t1) ->
  (0 < n)%Z ->
  (log_frames < d)%nat ->
  send_apdu_failsafe (S d) pdu n s =
  after [EvRaw pdu; EvLog (retry_message pdu)]
        (send_apdu_failsafe d pdu (n - 1) s1).
Proof.
  intros H Hn Hd. rewrite send_apdu_failsafe_unfold.
  pose proof (try_trace d pdu s) as Ht. rewrite H in *. simpl in Ht. subst.
  destruct (Z.ltb_spec 0 n); [|lia].
  destruct (Nat.leb_spec d log_frames); [lia|reflexivity].
Qed.

(** A retry without that room: [logging.info] raises [RecursionError]. *)
Lemma failsafe_overflows d pdu n s e s1 t1 :
  try_send_apdu_raw d pdu s = (Raise e, s1, t1) ->
  (0 < n)%Z ->
  (d <= log_frames)%nat ->
  send_apdu_failsafe (S d) pdu n s = (Raise RecursionError, s1, [EvRaw pdu]).
Proof.
  intros H Hn Hd. rewrite send_apdu_failsafe_unfold.
  pose proof (try_trace d pdu s) as Ht. rewrite H in *. simpl in Ht. subst.
  destruct (Z.ltb_spec 0 n); [|lia].
  destruct (Nat.leb_spec d log_frames); [reflexivity|lia].
Qed.

(** The trace of a failsafe send that got to run: a transmission, then per
    retry a log line and a transmission; the retries number at most the
    budget and at most what the stack leaves room for. *)
Lemma failsafe_trace pdu : forall d n s,
  exists m, snd (send_apdu_failsafe (S d) pdu n s) = retry_trace pdu m
            /\ (Z.of_nat m <= Z.max 0 n)%Z
            /\ (0 < m -> m + log_frames <= d)%nat.
Proof.
  induction d as [|d IH]; intros n s;
    [destruct (try_send_apdu_raw 0 pdu s) as [[[r|e] s1] t1] eqn:H
    |destruct (try_send_apdu_raw (S d) pdu s) as [[[r|e] s1] t1] eqn:H].
  - exists 0%nat. rewrite (failsafe_returns _ _ n _ _ _ _ H). repeat split; lia.
  - exists 0%nat. destruct (Z.ltb_spec 0 n).
    + rewrite (failsafe_overflows _ _ n _ _ _ _ H) by lia. repeat split; lia.
    + rewrite (failsafe_gives_up _ _ n _ _ _ _ H) by lia. repeat split; lia.
  - exists 0%nat. rewrite (failsafe_returns _ _ n _ _ _ _ H). repeat split; lia.
  - destruct (Z.ltb_spec 0 n).
    + destruct (Nat.leb_spec (S d) log_frames).
      * exists 0%nat. rewrite (failsafe_overflows _ _ n _ _ _ _ H) by lia.
        repeat split; lia.
      * rewrite (failsafe_retries _ _ n _ _ _ _ H) by lia.
        destruct (IH (n - 1)%Z s1) as [m [Hm [Hle Hroom]]].
        exists (S m).
        destruct (send_apdu_failsafe (S d) pdu (n - 1) s1) as [[o sf] tf].
        simpl in *. rewrite Hm. repeat split; lia.
    + exists 0%nat. rewrite (failsafe_gives_up _ _ n _ _ _ _ H) by lia.
      repeat split; lia.
Qed.

(** Every transmission of a failsafe send carries the pdu it was given;
    there is at least one, and at most one more than the budget. *)
Lemma failsafe_raw_calls d pdu n s :
  exists m : nat,
    raw_calls (snd (send_apdu_failsafe (S d) pdu n s)) = repeat pdu (S m)
    /\ (Z.of_nat m <= Z.max 0 n)%Z.
Proof.
  destruct (failsafe_trace pdu d n s) as [m [Hm [Hle _]]].
  exists m. now rewrite Hm, raw_calls_retry_trace.
Qed.

(** The transmissions of any failsafe send, also one that could not be
    called, number at most one more than the budget. *)
Lemma failsafe_raw_calls_le d pdu n s :
  (List.length (raw_calls (snd (send_apdu_failsafe d pdu n s)))
   <= Z.to_nat n + 1)%nat.
Proof.
  destruct d as [|d]; [simpl; lia|].
  destruct (failsafe_raw_calls d pdu n s) as [m [Hm Hle]].
  rewrite Hm, repeat_length. lia.
Qed.

(** A failsafe send that got to run starts with a transmission of its
    pdu. *)
Lemma failsafe_first_call d pdu n s :
  exists t, snd (send_apdu_failsafe (S d) pdu n s) = EvRaw pdu :: t.
Proof.
  destruct (failsafe_trace pdu d n s) as [m [Hm _]]. rewrite Hm.
  unfold retry_trace. eauto.
Qed.

(** A failsafe send that returned had been called with a frame left. *)
Lemma failsafe_returned_ran d pdu n s r s1 t1 :
  send_apdu_failsafe d pdu n s = (Return r, s1, t1) -> exists d', d = S d'.
Proof. destruct d; [discriminate|eauto]. Qed.

Lemma failed_attempts_app pdu : forall es1 es2 d s s',
  failed_attempts pdu d (es1 ++ es2) s s' ->
  exists m, failed_attempts pdu d es1 s m
            /\ failed_attempts pdu (d - List.length es1) es2 m s'.
Proof.
  induction es1 as [|e es1 IH]; intros es2 d s s' H; simpl in *.
  - exists s. rewrite Nat.sub_0_r. split; [constructor|assumption].
  - inversion H as [|d0 e0 es0 s0 s1 s2 t Htry Hrest]; subst.
    destruct (IH _ _ _ _ Hrest) as [m [Ha Hb]].
    exists m. split; [econstructor; eassumption|].
    now replace (d - S (List.length es1))%nat
      with (Nat.pred d - List.length es1)%nat by lia.
Qed.

Lemma failed_attempts_snoc pdu : forall es d s m e s' t,
  failed_attempts pdu d es s m ->
  try_send_apdu_raw (d - List.length es) pdu m = (Raise e, s', t) ->
  failed_attempts pdu d (es ++ [e]) s s'.
Proof.
  induction es as [|e0 es IH]; intros d s m e s' t H Htry; simpl in *.
  - inversion H; subst. rewrite Nat.sub_0_r in Htry.
    econstructor; [eassumption|constructor].
  - inversion H as [|d0 e1 es0 s0 s1 s2 t0 Htry0 Hrest]; subst.
    econstructor; [eassumption|].
    apply (IH _ _ _ _ _ t Hrest).
    now replace (Nat.pred d - List.length es)%nat
      with (d - S (List.length es))%nat by lia.
Qed.

(** Failures within the budget and the stack: the send succeeds at the
    transmission after them. *)
Lemma failsafe_recovers pdu : forall es d n s sk r s' t,
  failed_attempts pdu d es s sk ->
  try_send_apdu_raw (d - List.length es) pdu sk = (Return r, s', t) ->
  (Z.of_nat (List.length es) <= n)%Z ->
  (0 < List.length es -> List.length es + log_frames <= d)%nat ->
  send_apdu_failsafe (S d) pdu n s
  = (Return r, s', retry_trace pdu (List.length es)).
Proof.
  induction es as [|e es IH]; intros d n s sk r s' t Hf Hok Hle Hroom;
    inversion Hf as [|d0 e0 es0 s0 s1 s2 t0 Htry Hrest]; subst; simpl in *.
  - rewrite Nat.sub_0_r in Hok. now rewrite (failsafe_returns _ _ n _ _ _ _ Hok).
  - rewrite (failsafe_retries _ _ n _ _ _ _ Htry) by lia.
    destruct d as [|d]; [lia|]. simpl in *.
    rewrite (IH d (n - 1)%Z s1 sk r s' t Hrest Hok) by lia.
    reflexivity.
Qed.

(** More failures than the budget, with room on the stack for its
    retries: the send raises what the last attempt the budget allows
    raised. *)
Lemma failsafe_exhausts pdu : forall es d e s s',
  failed_attempts pdu d (es ++ [e]) s s' ->
  (0 < List.length es -> List.length es + log_frames <= d)%nat ->
  send_apdu_failsafe (S d) pdu (Z.of_nat (List.length es)) s
  = (Raise e, s', retry_trace pdu (List.length es)).
Proof.
  induction es as [|e0 es IH]; intros d e s s' Hf Hroom;
    inversion Hf as [|d0 e1 es0 s0 s1 s2 t0 Htry Hrest]; subst.
  - inversion Hrest; subst.
    now rewrite (failsafe_gives_up _ _ _ _ _ _ _ Htry) by (simpl; lia).
  - simpl List.length in *.
    rewrite (failsafe_retries _ _ _ _ _ _ _ Htry) by lia.
    replace (Z.of_nat (S (List.length es)) - 1)%Z
      with (Z.of_nat (List.length es)) by lia.
    destruct d as [|d]; [lia|]. simpl in Hrest.
    rewrite (IH d e s1 s' Hrest) by lia. reflexivity.
Qed.

(** What a failsafe send that raised went through: its budget's worth of
    chained failures, the last of which it re-raises, or fewer and then no
    room on the stack for the log line of the next retry. *)
Lemma failsafe_raise_inversion pdu : forall d n s e s' t,
  send_apdu_failsafe (S d) pdu n s = (Raise e, s', t) ->
  exists es,
    t = retry_trace pdu (List.length es)
    /\ ((List.length es = Z.to_nat n
         /\ failed_attempts pdu d (es ++ [e]) s s')
        \/ ((List.length es < Z.to_nat n)%nat
            /\ e = RecursionError
            /\ (d - List.length es <= log_frames)%nat
            /\ exists e', failed_attempts pdu d (es ++ [e']) s s')).
Proof.
  induction d as [|d IH]; intros n s e s' t Hr;
    [destruct (try_send_apdu_raw 0 pdu s) as [[[r|e0] s1] t1] eqn:H
    |destruct (try_send_apdu_raw (S d) pdu s) as [[[r|e0] s1] t1] eqn:H].
  - rewrite (failsafe_returns _ _ n _ _ _ _ H) in Hr. discriminate.
  - exists []. destruct (Z.ltb_spec 0 n).
    + rewrite (failsafe_overflows _ _ n _ _ _ _ H) in Hr by lia.
      injection Hr as <- <- <-. split; [reflexivity|]. right.
      repeat split; simpl; try lia. exists e0.
      econstructor; [eassumption|constructor].
    + rewrite (failsafe_gives_up _ _ n _ _ _ _ H) in Hr by lia.
      injection Hr as <- <- <-. split; [reflexivity|]. left.
      split; [simpl; lia|]. econstructor; [eassumption|constructor].
  - rewrite (failsafe_returns _ _ n _ _ _ _ H) in Hr. discriminate.
  - destruct (Z.ltb_spec 0 n).
    + destruct (Nat.leb_spec (S d) log_frames).
      * exists []. rewrite (failsafe_overflows _ _ n _ _ _ _ H) in Hr by lia.
        injection Hr as <- <- <-. split; [reflexivity|]. right.
        repeat split; simpl; try lia. exists e0.
        econstructor; [eassumption|constructor].
      * rewrite (failsafe_retries _ _ n _ _ _ _ H) in Hr by lia.
        destruct (send_apdu_failsafe (S d) pdu (n - 1) s1) as [[o sf] tf] eqn:Hrec.
        simpl in Hr. injection Hr as -> -> <-.
        destruct (IH (n - 1)%Z s1 e s' tf Hrec) as [es [Htf Hcases]].
        exists (e0 :: es). subst tf. split; [reflexivity|].
        destruct Hcases as [[Hlen Hfa]|[Hlen [He [Hroom [e' Hfa]]]]].
        -- left. split; [simpl; lia|].
           simpl. econstructor; [eassumption|exact Hfa].
        -- right. repeat split; simpl; try lia; try assumption.
           exists e'. econstructor; [eassumption|exact Hfa].
    + exists []. rewrite (failsafe_gives_up _ _ n _ _ _ _ H) in Hr by lia.
      injection Hr as <- <- <-. split; [reflexivity|]. left.
      split; [simpl; lia|]. econstructor; [eassumption|constructor].
Qed.

(** A send that returned takes the same path under any larger budget. *)
Lemma failsafe_return_stable pdu : forall d n n' s r s' t,
  send_apdu_failsafe d pdu n s = (Return r, s', t) ->
  (n <= n')%Z ->
  send_apdu_failsafe d pdu n' s = (Return r, s', t).
Proof.
  induction d as [|d IH]; intros n n' s r s' t Hr Hle; [discriminate|].
  destruct (try_send_apdu_raw d pdu s) as [[[r0|e0] s1] t1] eqn:H.
  - rewrite (failsafe_returns _ _ n _ _ _ _ H) in Hr.
    now rewrite (failsafe_returns _ _ n' _ _ _ _ H).
  - destruct (Z.ltb_spec 0 n).
    + destruct (Nat.leb_spec d log_frames).
      * rewrite (failsafe_overflows _ _ n _ _ _ _ H) in Hr by lia. discriminate.
      * rewrite (failsafe_retries _ _ n _ _ _ _ H) in Hr by lia.
        rewrite (failsafe_retries _ _ n' _ _ _ _ H) by lia.
        destruct (send_apdu_failsafe d pdu (n - 1) s1) as [[o sf] tf] eqn:Hrec.
        simpl in Hr. injection Hr as -> -> <-.
        now rewrite (IH (n - 1)%Z (n' - 1)%Z s1 r s' tf Hrec ltac:(lia)).
    + rewrite (failsafe_gives_up _ _ n _ _ _ _ H) in Hr by lia. discriminate.
Qed.

End FailsafeFacts.

(** ** The send chain of [LinkBase] *)

Section SendChain.

Variable St : Type.
Variable raw : nat -> string -> St -> outcome pyval * St.
Variable log_frames : nat.
Variable sw_match : option string -> string -> outcome bool.

Local Abbreviation try_send_apdu_raw := (LinkBase.try_send_apdu_raw St raw).
Local Abbreviation send_apdu_failsafe :=
  (LinkBase.send_apdu_failsafe St raw log_frames).
Local Abbreviation send_apdu := (LinkBase.send_apdu St raw log_frames).
Local Abbreviation send_apdu_checksw :=
  (LinkBase.send_apdu_checksw St raw log_frames sw_match).
Local Abbreviation failed_attempts := (LinkBase.failed_attempts St raw).
Local Abbreviation retry_message := LinkBase.retry_message.

(** Rebinding the pair a send returned and returning it changes nothing. *)
Lemma bind_rebind_pair {A B} (m : M St (A * B)) s :
  ('(a, b) <- m ;; ret (a, b)) s = m s.
Proof.
  unfold bind. destruct (m s) as [[[[a b]|e] s1] t1]; simpl; [|reflexivity].
  now rewrite app_nil_r.
Qed.

(** The body of [send_apdu] in terms of the outcome of its first send. *)
Lemma send_apdu_unfold d pdu n s :
  send_apdu (S d) pdu n s =
  match send_apdu_failsafe d pdu n s with
  | (Raise e, s1, t1) => (Raise e, s1, t1)
  | (Return (data, None), s1, t1) => (Return (data, None), s1, t1)
  | (Return (data, Some sw), s1, t1) =>
      if (Py.slice 0 2 sw =? "9f")%string || (Py.slice 0 2 sw =? "61")%string
      then after t1 (send_apdu_failsafe d
                       (Py.slice 0 2 pdu ++ "c00000" ++ Py.slice 2 4 sw)%string
                       n s1)
      else (Return (data, Some sw), s1, t1)
  end.
Proof.
  unfold LinkBase.send_apdu at 1. unfold bind at 1.
  destruct (send_apdu_failsafe d pdu n s) as [[[[data [sw|]]|e] s1] t1];
    try reflexivity.
  - destruct ((Py.slice 0 2 sw =? "9f")%string || (Py.slice 0 2 sw =? "61")%string).
    + now rewrite bind_rebind_pair.
    + simpl. now rewrite app_nil_r.
  - simpl. now rewrite app_nil_r.
Qed.

(** The chaining test of [send_apdu] as a proposition. *)
Lemma chaining_test sw :
  (Py.slice 0 2 sw =? "9f")%string || (Py.slice 0 2 sw =? "61")%string = true
  <-> Py.slice 0 2 sw = "9f"%string \/ Py.slice 0 2 sw = "61"%string.
Proof.
  rewrite orb_true_iff, !String.eqb_eq. reflexivity.
Qed.

Lemma send_apdu_chains d pdu n s data sw s1 t1 :
  send_apdu_failsafe d pdu n s = (Return (data, Some sw), s1, t1) ->
  Py.slice 0 2 sw = "9f"%string \/ Py.slice 0 2 sw = "61"%string ->
  send_apdu (S d) pdu n s =
  after t1 (send_apdu_failsafe d
              (Py.slice 0 2 pdu ++ "c00000" ++ Py.slice 2 4 sw)%string n s1).
Proof.
  intros H Hsw. rewrite send_apdu_unfold, H.
  apply chaining_test in Hsw. now rewrite Hsw.
Qed.

Lemma send_apdu_passes d pdu n s data sw s1 t1 :
  send_apdu_failsafe d pdu n s = (Return (data, Some sw), s1, t1) ->
  Py.slice 0 2 sw <> "9f"%string ->
  Py.slice 0 2 sw <> "61"%string ->
  send_apdu (S d) pdu n s = (Return (data, Some sw), s1, t1).
Proof.
  intros H H9f H61. rewrite send_apdu_unfold, H.
  destruct ((Py.slice 0 2 sw =? "9f")%string || (Py.slice 0 2 sw =? "61")%string)
    eqn:Hc; [|reflexivity].
  apply chaining_test in Hc. tauto.
Qed.

Lemma firstn_succ_nth {A} (dflt : A) : forall (l : list A) n,
  (n < List.length l)%nat ->
  firstn (S n) l = firstn n l ++ [nth n l dflt].
Proof.
  induction l as [|x l IH]; intros n Hn; simpl in Hn; [lia|].
  destruct n as [|n]; [reflexivity|].
  change (firstn (S (S n)) (x :: l)) with (x :: firstn (S n) l).
  rewrite (IH n) by lia. reflexivity.
Qed.


(** C2, as the code has it: [send_apdu_failsafe] does not tell an absence
    fault ([NoCardError], [ReaderError]) from any other exception.  When the
    raw transmission fails with one, the fault surfaces at once, after that
    single transmission, only if the retry budget is zero (or less); with a
    budget [N > 0] the failure is logged and the same pdu is sent again with
    budget [N - 1], so at least two transmissions are made and the caller
    gets the outcome of the retry.  (When the stack has no room left for
    the log call, that call raises [RecursionError] instead.) *)
Theorem send_apdu_failsafe_absence_fault d pdu (N : Z) s e s1 :
  e = NoCardError \/ e = ReaderError ->
  raw d pdu s = (Raise e, s1) ->
  ((N <= 0)%Z ->
   send_apdu_failsafe (S d) pdu N s = (Raise e, s1, [EvRaw pdu]))
  /\ ((0 < N)%Z -> (log_frames < d)%nat ->
      send_apdu_failsafe (S d) pdu N s
      = after [EvRaw pdu; EvLog (retry_message pdu)]
              (send_apdu_failsafe d pdu (N - 1) s1)
      /\ exists m,
          raw_calls (snd (send_apdu_failsafe (S d) pdu N s))
          = repeat pdu (S (S m)))
  /\ ((0 < N)%Z -> (d <= log_frames)%nat ->
      send_apdu_failsafe (S d) pdu N s
      = (Raise RecursionError, s1, [EvRaw pdu])).
Proof.
  intros _ Hraw. apply try_raw_raises in Hraw. split; [|split].
  - intros HN. now apply (failsafe_gives_up St raw log_frames d pdu N s e s1 _ Hraw).
  - intros HN Hd.
    rewrite (failsafe_retries St raw log_frames d pdu N s e s1 _ Hraw HN Hd).
    split; [reflexivity|].
    destruct d as [|d]; [lia|].
    destruct (failsafe_raw_calls St raw log_frames d pdu (N - 1) s1) as [m [Hm _]].
    exists m. destruct (send_apdu_failsafe (S d) pdu (N - 1) s1) as [[o sf] tf].
    simpl in *. now rewrite Hm.
  - intros HN Hd.
    now apply (failsafe_overflows St raw log_frames d pdu N s e s1 _ Hraw).
Qed.

(** Slices of a continuation command built from a pdu of at least one byte
    (two hex characters). *)
Lemma continuation_header pdu tail :
  (2 <= String.length pdu)%nat ->
  Py.slice 0 2 (Py.slice 0 2 pdu ++ "c00000" ++ tail)%string = Py.slice 0 2 pdu
  /\ Py.slice 2 4 (Py.slice 0 2 pdu ++ "c00000" ++ tail)%string = "c0"%string.
Proof.
  destruct pdu as [|a [|b pdu]]; simpl; try lia. intros _.
  unfold Py.slice; simpl. destruct pdu; split; reflexivity.
Qed.

(** C3, as the code has it: when the first response's status word begins with
    ['9f'] or ['61'], the continuation command that [send_apdu] sends next
    takes only its class byte (its first two hex characters) from the
    original pdu, which has at least that byte; its instruction byte is the
    fixed ['c0'] (GET RESPONSE), not the original instruction. *)
Theorem send_apdu_continuation_header d pdu (N : Z) s data sw s1 t1 :
  send_apdu_failsafe d pdu N s = (Return (data, Some sw), s1, t1) ->
  Py.slice 0 2 sw = "9f"%string \/ Py.slice 0 2 sw = "61"%string ->
  (2 <= String.length pdu)%nat ->
  exists pdu_gr r sf t2,
    send_apdu (S d) pdu N s = (r, sf, t1 ++ EvRaw pdu_gr :: t2)
    /\ Py.slice 0 2 pdu_gr = Py.slice 0 2 pdu
    /\ Py.slice 2 4 pdu_gr = "c0"%string.
Proof.
  intros H Hsw Hlen. rewrite (send_apdu_chains _ _ _ _ _ _ _ _ H Hsw).
  destruct (failsafe_returned_ran St raw log_frames _ _ _ _ _ _ _ H) as [d' ->].
  set (pdu_gr := (Py.slice 0 2 pdu ++ "c00000" ++ Py.slice 2 4 sw)%string).
  destruct (failsafe_first_call St raw log_frames d' pdu_gr N s1) as [t2 Ht2].
  destruct (send_apdu_failsafe (S d') pdu_gr N s1) as [[r sf] tf].
  simpl in Ht2. subst tf.
  exists pdu_gr, r, sf, t2. split; [reflexivity|].
  now apply continuation_header.
Qed.

(** C5: when the first response's status word begins with ['9f'] or ['61'],
    [send_apdu] follows the first send with exactly one failsafe send of the
    continuation command [pdu[0:2] + 'c00000' + sw[2:4]] (the class byte of
    the original pdu, the fixed bytes, SW2 of the first response) and its
    outcome, state and trace are those of that send: the first response's
    data is dropped.  Every further transmission carries that command; there
    is at least one and at most one more than the retry budget, and when the
    channel answers the first of them the continuation's [(data, sw)] is the
    result after exactly that one transmission. *)
Theorem send_apdu_get_response d pdu (N : Z) s data sw s1 t1 :
  send_apdu_failsafe d pdu N s = (Return (data, Some sw), s1, t1) ->
  Py.slice 0 2 sw = "9f"%string \/ Py.slice 0 2 sw = "61"%string ->
  send_apdu (S d) pdu N s
  = after t1 (send_apdu_failsafe d
                (Py.slice 0 2 pdu ++ "c00000" ++ Py.slice 2 4 sw)%string N s1)
  /\ (exists m,
        raw_calls (snd (send_apdu (S d) pdu N s))
        = raw_calls t1
          ++ repeat (Py.slice 0 2 pdu ++ "c00000" ++ Py.slice 2 4 sw)%string (S m)
        /\ (Z.of_nat m <= Z.max 0 N)%Z)
  /\ (forall data2 sw2 s2,
        raw (Nat.pred d)
          (Py.slice 0 2 pdu ++ "c00000" ++ Py.slice 2 4 sw)%string s1
        = (Return (PyPair data2 sw2), s2) ->
        send_apdu (S d) pdu N s
        = (Return (data2, sw2), s2,
           t1 ++ [EvRaw (Py.slice 0 2 pdu ++ "c00000" ++ Py.slice 2 4 sw)%string])).
Proof.
  intros H Hsw. rewrite (send_apdu_chains _ _ _ _ _ _ _ _ H Hsw).
  destruct (failsafe_returned_ran St raw log_frames _ _ _ _ _ _ _ H) as [d' ->].
  set (pdu_gr := (Py.slice 0 2 pdu ++ "c00000" ++ Py.slice 2 4 sw)%string).
  split; [reflexivity|]. split.
  - destruct (failsafe_raw_calls St raw log_frames d' pdu_gr N s1) as [m [Hm Hle]].
    exists m. split; [|assumption].
    destruct (send_apdu_failsafe (S d') pdu_gr N s1) as [[o sf] tf].
    simpl in *. now rewrite raw_calls_app, Hm.
  - intros data2 sw2 s2 Hraw. simpl in Hraw. apply try_raw_pair in Hraw.
    now rewrite (failsafe_returns St raw log_frames d' pdu_gr N s1 _ _ _ Hraw).
Qed.

(** C6: [send_apdu] chains at most once.  Its run is either its first
    failsafe send alone or that send followed by one failsafe send of the
    continuation command, so it makes at most [2 * (N + 1)] raw
    transmissions with a budget [N >= 0]; and whatever the continuation's
    response is, also one whose status word again begins with ['9f'] or
    ['61'], that response is the result and the run ends with the
    continuation's trace: no second continuation command is sent. *)
Theorem send_apdu_single_shot d pdu (N : Z) s :
  (send_apdu (S d) pdu N s = send_apdu_failsafe d pdu N s
   \/ exists data sw s1 t1,
       send_apdu_failsafe d pdu N s = (Return (data, Some sw), s1, t1)
       /\ send_apdu (S d) pdu N s
          = after t1 (send_apdu_failsafe d
                        (Py.slice 0 2 pdu ++ "c00000" ++ Py.slice 2 4 sw)%string
                        N s1))
  /\ (List.length (raw_calls (snd (send_apdu (S d) pdu N s)))
      <= 2 * (Z.to_nat N + 1))%nat
  /\ (forall data sw s1 t1 data2 sw2 s2 t2,
        send_apdu_failsafe d pdu N s = (Return (data, Some sw), s1, t1) ->
        Py.slice 0 2 sw = "9f"%string \/ Py.slice 0 2 sw = "61"%string ->
        send_apdu_failsafe d
          (Py.slice 0 2 pdu ++ "c00000" ++ Py.slice 2 4 sw)%string N s1
        = (Return (data2, Some sw2), s2, t2) ->
        Py.slice 0 2 sw2 = "9f"%string \/ Py.slice 0 2 sw2 = "61"%string ->
        send_apdu (S d) pdu N s = (Return (data2, Some sw2), s2, t1 ++ t2)).
Proof.
  pose proof (failsafe_raw_calls_le St raw log_frames d) as Hone.
  split; [|split].
  - rewrite send_apdu_unfold.
    destruct (send_apdu_failsafe d pdu N s) as [[[[data [sw|]]|e] s1] t1] eqn:H;
      try (left; reflexivity).
    destruct ((Py.slice 0 2 sw =? "9f")%string || (Py.slice 0 2 sw =? "61")%string);
      [right|left; reflexivity].
    now exists data, sw, s1, t1.
  - rewrite send_apdu_unfold. pose proof (Hone pdu N s) as H1.
    destruct (send_apdu_failsafe d pdu N s) as [[[[data [sw|]]|e] s1] t1];
      simpl in *; try lia.
    destruct ((Py.slice 0 2 sw =? "9f")%string || (Py.slice 0 2 sw =? "61")%string);
      simpl; [|lia].
    pose proof (Hone (Py.slice 0 2 pdu ++ "c00000" ++ Py.slice 2 4 sw)%string N s1)
      as H2.
    destruct (send_apdu_failsafe d _ N s1) as [[o sf] tf]. simpl in *.
    rewrite raw_calls_app, length_app. lia.
  - intros data sw s1 t1 data2 sw2 s2 t2 H Hsw H2 _.
    now rewrite (send_apdu_chains _ _ _ _ _ _ _ _ H Hsw), H2.
Qed.

(** C7: when the first response's status word is not [None] and begins with
    neither ['9f'] nor ['61'], [send_apdu] returns the first [(data, sw)] as
    received, and its state and trace are those of the first send: no
    further transmission is made. *)
Theorem send_apdu_no_chaining d pdu (N : Z) s data sw s1 t1 :
  send_apdu_failsafe d pdu N s = (Return (data, Some sw), s1, t1) ->
  Py.slice 0 2 sw <> "9f"%string ->
  Py.slice 0 2 sw <> "61"%string ->
  send_apdu (S d) pdu N s = (Return (data, Some sw), s1, t1)
  /\ raw_calls (snd (send_apdu (S d) pdu N s)) = raw_calls t1.
Proof.
  intros H H9f H61.
  rewrite (send_apdu_passes _ _ _ _ _ _ _ _ H H9f H61). now split.
Qed.

(** The body of [send_apdu_checksw] in terms of what [send_apdu] and
    [sw_match] hand back. *)
Lemma send_apdu_checksw_unfold d pdu sw s :
  send_apdu_checksw (S d) pdu sw s =
  match send_apdu d pdu 0 s with
  | (Raise e, s1, t1) => (Raise e, s1, t1)
  | (Return (data, observed), s1, t1) =>
      match sw_match observed sw with
      | Return true => (Return (data, observed), s1, t1)
      | Return false => (Raise (SwMatchError observed (Py.lower sw)), s1, t1)
      | Raise e => (Raise e, s1, t1)
      end
  end.
Proof.
  unfold LinkBase.send_apdu_checksw, bind, lift.
  destruct (send_apdu d pdu 0 s) as [[[[data observed]|e] s1] t1]; [|reflexivity].
  simpl. destruct (sw_match observed sw) as [[|]|e]; simpl;
    now rewrite ?app_nil_r.
Qed.

(** C8: [send_apdu_checksw pdu sw] runs [send_apdu] with retry budget 0 and
    nothing else that touches the channel.  What that send raises, the
    guard raises; when it returns [(data, observed)], the guard returns the
    same pair if [sw_match] finds that [observed] matches [sw], raises
    [SwMatchError (observed, sw.lower())] if it finds that it does not, and
    raises what [sw_match] raised otherwise; state and trace are those of
    [send_apdu pdu 0].  In particular a raw transmission that fails is not
    retried: the guard raises its exception after that one transmission. *)
Theorem send_apdu_checksw_verdict depth d pdu sw s :
  send_apdu_checksw (S depth) pdu sw s
  = match send_apdu depth pdu 0 s with
    | (Raise e, s1, t1) => (Raise e, s1, t1)
    | (Return (data, observed), s1, t1) =>
        match sw_match observed sw with
        | Return true => (Return (data, observed), s1, t1)
        | Return false =>
            (Raise (SwMatchError observed (Py.lower sw)), s1, t1)
        | Raise e => (Raise e, s1, t1)
        end
    end
  /\ (forall e s1,
        raw d pdu s = (Raise e, s1) ->
        send_apdu_checksw (S (S (S d))) pdu sw s = (Raise e, s1, [EvRaw pdu])).
Proof.
  split; [apply send_apdu_checksw_unfold|].
  intros e s1 Hraw. apply try_raw_raises in Hraw.
  rewrite send_apdu_checksw_unfold, send_apdu_unfold.
  now rewrite (failsafe_gives_up St raw log_frames d pdu 0 s e s1 _ Hraw).
Qed.

(** A trace does not equal itself extended by an event. *)
Lemma trace_grows (t1 t2 : list event) ev : t1 ++ ev :: t2 <> t1.
Proof.
  intros H. apply (f_equal (@List.length event)) in H.
  rewrite length_app in H. simpl in H. lia.
Qed.

(** C9: the chaining trigger compares strings, so it is case-sensitive.
    After a first response [(data, sw)], the run of [send_apdu] goes beyond
    that response exactly when [sw[0:2]] is the lowercase ['9f'] or ['61'];
    the uppercase status word ['9F05'] is returned unchanged, with no
    continuation command sent. *)
Theorem send_apdu_trigger_case_sensitive d pdu (N : Z) s data sw s1 t1 :
  send_apdu_failsafe d pdu N s = (Return (data, Some sw), s1, t1) ->
  (send_apdu (S d) pdu N s <> (Return (data, Some sw), s1, t1)
   <-> Py.slice 0 2 sw = "9f"%string \/ Py.slice 0 2 sw = "61"%string)
  /\ (sw = "9F05"%string ->
      send_apdu (S d) pdu N s = (Return (data, Some "9F05"%string), s1, t1)).
Proof.
  intros H. split; [split|].
  - intros Hne.
    destruct (string_dec (Py.slice 0 2 sw) "9f") as [|H9f]; [now left|].
    destruct (string_dec (Py.slice 0 2 sw) "61") as [|H61]; [now right|].
    exfalso. apply Hne. now apply send_apdu_passes.
  - intros Hsw. rewrite (send_apdu_chains _ _ _ _ _ _ _ _ H Hsw).
    destruct (failsafe_returned_ran St raw log_frames _ _ _ _ _ _ _ H) as [d' ->].
    destruct (failsafe_first_call St raw log_frames d'
                (Py.slice 0 2 pdu ++ "c00000" ++ Py.slice 2 4 sw)%string N s1)
      as [t2 Ht2].
    destruct (send_apdu_failsafe (S d') _ N s1) as [[r sf] tf].
    simpl in *. subst tf.
    intros Heq. injection Heq as _ _ Ht. now apply trace_grows in Ht.
  - intros ->. apply send_apdu_passes; [assumption| |]; discriminate.
Qed.

(** C10: when the first send returns a [None] status word, the [None] test
    keeps [send_apdu] from slicing it: [(data, None)] is returned unchanged,
    with the state and trace of the first send. *)
Theorem send_apdu_none_status d pdu (N : Z) s data s1 t1 :
  send_apdu_failsafe d pdu N s = (Return (data, None), s1, t1) ->
  send_apdu (S d) pdu N s = (Return (data, None), s1, t1).
Proof.
  intros H. now rewrite send_apdu_unfold, H.
Qed.

End SendChain.

(** ** The raw transmission of [PcscSimLink] *)

Section PcscFacts.

Variable Conn : Type.
Variable transmit : list Z -> Conn -> outcome (list Z * Z * Z) * Conn.
Variable h2i : string -> outcome (list Z).
Variable i2h : list Z -> string.
Variable log_frames : nat.

(** [_send_apdu_raw] does hand back what the connection's [transmit]
    produced, as hex strings. *)
Lemma _send_apdu_raw_transmits pdu c apdu data sw1 sw2 c1 :
  h2i pdu = Return apdu ->
  transmit apdu c = (Return (data, sw1, sw2), c1) ->
  PcscSimLink._send_apdu_raw Conn transmit h2i i2h pdu c
  = (Return (PyPair (i2h data) (Some (i2h [sw1; sw2]))), c1).
Proof.
  intros Hh Ht. unfold PcscSimLink._send_apdu_raw. now rewrite Hh, Ht.
Qed.

(** Attribute lookup sends [send_apdu_raw] on a [PcscSimLink] back to
    itself until the stack is used up. *)
Lemma pcsc_send_apdu_raw_recursion (depth : nat) pdu (c : Conn) :
  PcscSimLink.send_apdu_raw Conn depth pdu c = (Raise RecursionError, c).
Proof.
  induction depth as [|d IH]; simpl; [reflexivity|].
  unfold LinkBase.send_apdu_raw. now rewrite IH.
Qed.

(** C1 fails on the code: [send_apdu_raw] on a [PcscSimLink] never reaches
    [_send_apdu_raw].  [PcscSimLink] does not override it, and the body of
    [LinkBase.send_apdu_raw] calls [self.send_apdu_raw] again: whatever stack
    depth the interpreter allows and whatever the pdu, the call raises
    [RecursionError] and leaves the connection as it was, so nothing is
    transmitted and no [(data, sw)] is returned. *)
Theorem send_apdu_raw_never_transmits (depth : nat) pdu (c : Conn) :
  PcscSimLink.send_apdu_raw Conn depth pdu c = (Raise RecursionError, c)
  /\ returned (fst (PcscSimLink.send_apdu_raw Conn depth pdu c)) = false.
Proof.
  now rewrite pcsc_send_apdu_raw_recursion.
Qed.

(** A failsafe send on a [PcscSimLink] shares the stack with the raw calls
    that exhaust it: it retries until its budget or the room for the log
    call is used up, and raises. *)
Lemma pcsc_failsafe_run pdu : forall (d : nat) (N : Z) (c : Conn),
  LinkBase.send_apdu_failsafe Conn (PcscSimLink.send_apdu_raw Conn) log_frames
    (S d) pdu N c
  = (Raise RecursionError, c,
     retry_trace pdu (Nat.min (Z.to_nat N) (d - log_frames))).
Proof.
  induction d as [|d IH]; intros N c.
  - pose proof (try_raw_raises Conn (PcscSimLink.send_apdu_raw Conn) 0 pdu c
                  _ _ (pcsc_send_apdu_raw_recursion 0 pdu c)) as Htry.
    rewrite Nat.min_0_r. destruct (Z.ltb_spec 0 N).
    + now rewrite (failsafe_overflows _ _ _ _ pdu N c _ _ _ Htry) by lia.
    + now rewrite (failsafe_gives_up _ _ _ _ pdu N c _ _ _ Htry) by lia.
  - pose proof (try_raw_raises Conn (PcscSimLink.send_apdu_raw Conn) (S d) pdu c
                  _ _ (pcsc_send_apdu_raw_recursion (S d) pdu c)) as Htry.
    destruct (Z.ltb_spec 0 N).
    + destruct (Nat.leb_spec (S d) log_frames).
      * rewrite (failsafe_overflows _ _ _ _ pdu N c _ _ _ Htry) by lia.
        now replace (S d - log_frames)%nat with 0%nat by lia; rewrite Nat.min_0_r.
      * rewrite (failsafe_retries _ _ _ _ pdu N c _ _ _ Htry) by lia.
        rewrite IH. simpl after.
        replace (Nat.min (Z.to_nat N) (S d - log_frames))
          with (S (Nat.min (Z.to_nat (N - 1)) (d - log_frames))) by lia.
        reflexivity.
    + rewrite (failsafe_gives_up _ _ _ _ pdu N c _ _ _ Htry) by lia.
      now replace (Z.to_nat N) with 0%nat by lia.
Qed.

Lemma pcsc_failsafe_raises (depth : nat) pdu (N : Z) (c : Conn) :
  exists t,
    LinkBase.send_apdu_failsafe Conn (PcscSimLink.send_apdu_raw Conn)
      log_frames depth pdu N c
    = (Raise RecursionError, c, t).
Proof.
  destruct depth as [|d]; [now exists []|].
  rewrite pcsc_failsafe_run. eauto.
Qed.

End PcscFacts.

(** ** Concrete runs *)

Section Runs.

Local Abbreviation select_mf := "A0A40000023F00".
Local Abbreviation retry_line :=
  (EvLog "eception occured when sending apdu A0A40000023F00, retry...").
Local Abbreviation ok9000 := (Return (PyPair "" (Some "9000"))).

(** The runs are those of a subclass whose [send_apdu_raw] plays a script,
    with [logging.info] three calls deep and fifty frames left for a
    failsafe send. *)
Local Abbreviation failsafe :=
  (LinkBase.send_apdu_failsafe _ Double.scripted_method 3 50).
Local Abbreviation send :=
  (LinkBase.send_apdu _ Double.scripted_method 3 51).
Local Abbreviation checksw :=
  (LinkBase.send_apdu_checksw _ Double.scripted_method 3 Double.sw_match 52).

(** The documented path and the path the call takes, on a connection that
    answers every command with status 9000: [_send_apdu_raw] transmits once
    and returns the pair, [send_apdu_raw] raises with nothing transmitted. *)
Example pcsc_raw_paths_differ :
  PcscSimLink._send_apdu_raw nat (Double.answering [] 144 0)
    Double.h2i Double.i2h select_mf 0%nat
  = (Return (PyPair "" (Some "9000")), 1%nat)
  /\ PcscSimLink.send_apdu_raw nat 1000 select_mf 0%nat
     = (Raise RecursionError, 0%nat).
Proof. split; vm_compute; reflexivity. Qed.



(** C2 as stated fails: with a budget of one, a transmission that fails with
    [NoCardError] is retried; here the retry is answered, and the caller
    never sees the fault. *)
Lemma absence_fault_is_retried :
  Double.scripted_method 49 select_mf [Raise NoCardError; ok9000]
  = (Raise NoCardError, [ok9000])
  /\ failsafe select_mf 1 [Raise NoCardError; ok9000]
     = (Return ("", Some "9000"), [],
        [EvRaw select_mf; retry_line; EvRaw select_mf])
  /\ failsafe select_mf 1 [Raise NoCardError; ok9000]
     <> (Raise NoCardError, [ok9000], [EvRaw select_mf]).
Proof.
  split; [reflexivity|]. split; [vm_compute; reflexivity|].
  vm_compute. discriminate.
Qed.

(** The card stays away: budget one, two transmissions, then the fault. *)
Lemma send_apdu_failsafe_absence_fault_witness :
  ((1 <= 0)%Z ->
   failsafe select_mf 1 [Raise NoCardError; Raise NoCardError]
   = (Raise NoCardError, [Raise NoCardError], [EvRaw select_mf]))
  /\ ((0 < 1)%Z -> (3 < 49)%nat ->
      failsafe select_mf 1 [Raise NoCardError; Raise NoCardError]
      = after [EvRaw select_mf; EvLog (LinkBase.retry_message select_mf)]
              (LinkBase.send_apdu_failsafe _ Double.scripted_method 3 49
                 select_mf (1 - 1) [Raise NoCardError])
      /\ exists m,
          raw_calls
            (snd (failsafe select_mf 1 [Raise NoCardError; Raise NoCardError]))
          = repeat select_mf (S (S m)))
  /\ ((0 < 1)%Z -> (49 <= 3)%nat ->
      failsafe select_mf 1 [Raise NoCardError; Raise NoCardError]
      = (Raise RecursionError, [Raise NoCardError], [EvRaw select_mf])).
Proof.
  apply (send_apdu_failsafe_absence_fault _ Double.scripted_method 3 49
           select_mf 1 [Raise NoCardError; Raise NoCardError] NoCardError
           [Raise NoCardError]).
  - left. reflexivity.
  - reflexivity.
Defined.

(** C3 as stated fails: for SELECT (class A0, instruction A4) answered with
    9f05, the continuation command is A0 c0 00 00 05; its second byte is
    GET RESPONSE, not the original instruction. *)
Lemma continuation_keeps_class_only :
  send select_mf 0
    [Return (PyPair "" (Some "9f05"));
     Return (PyPair "0011223344" (Some "9000"))]
  = (Return ("0011223344", Some "9000"), [],
     [EvRaw select_mf; EvRaw "A0c0000005"])
  /\ Py.slice 0 4 "A0c0000005" <> Py.slice 0 4 select_mf
  /\ Double.h2i "A0c0000005" = Return [160; 192; 0; 0; 5]%Z
  /\ Double.h2i select_mf = Return [160; 164; 0; 0; 2; 63; 0]%Z.
Proof.
  split; [vm_compute; reflexivity|]. split; [vm_compute; discriminate|].
  split; vm_compute; reflexivity.
Qed.

Lemma send_apdu_continuation_header_witness :
  exists pdu_gr r sf t2,
    send select_mf 0
      [Return (PyPair "" (Some "9f05"));
       Return (PyPair "0011223344" (Some "9000"))]
    = (r, sf, [EvRaw select_mf] ++ EvRaw pdu_gr :: t2)
    /\ Py.slice 0 2 pdu_gr = Py.slice 0 2 select_mf
    /\ Py.slice 2 4 pdu_gr = "c0".
Proof.
  apply (send_apdu_continuation_header _ Double.scripted_method 3 50
           select_mf 0
           [Return (PyPair "" (Some "9f05"));
            Return (PyPair "0011223344" (Some "9000"))]
           "" "9f05" [Return (PyPair "0011223344" (Some "9000"))]).
  - vm_compute. reflexivity.
  - left. reflexivity.
  - simpl. lia.
Defined.

(** SELECT answered with 9f05: one GET RESPONSE for five bytes follows, and
    its answer is the result.  The command is the string A0c0000005, the
    same bytes as the spec's A0C0000005. *)
Lemma send_apdu_get_response_witness :
  send select_mf 0
    [Return (PyPair "" (Some "9f05"));
     Return (PyPair "0011223344" (Some "9000"))]
  = (Return ("0011223344", Some "9000"), [],
     [EvRaw select_mf] ++ [EvRaw "A0c0000005"])
  /\ Double.h2i "A0c0000005" = Double.h2i "A0C0000005".
Proof.
  split; [|vm_compute; reflexivity].
  apply (send_apdu_get_response _ Double.scripted_method 3 50 select_mf 0
           [Return (PyPair "" (Some "9f05"));
            Return (PyPair "0011223344" (Some "9000"))]
           "" "9f05" [Return (PyPair "0011223344" (Some "9000"))]
           [EvRaw select_mf]).
  - vm_compute. reflexivity.
  - left. reflexivity.
  - reflexivity.
Defined.

(** The continuation is answered with 6112: that answer is the result, and
    the third scripted response is never asked for. *)
Lemma send_apdu_single_shot_witness :
  send select_mf 0
    [Return (PyPair "" (Some "9f05"));
     Return (PyPair "AABB" (Some "6112"));
     Return (PyPair "CC" (Some "9000"))]
  = (Return ("AABB", Some "6112"), [Return (PyPair "CC" (Some "9000"))],
     [EvRaw select_mf] ++ [EvRaw "A0c0000005"]).
Proof.
  apply (send_apdu_single_shot _ Double.scripted_method 3 50 select_mf 0
           [Return (PyPair "" (Some "9f05"));
            Return (PyPair "AABB" (Some "6112"));
            Return (PyPair "CC" (Some "9000"))])
    with (data := "") (sw := "9f05")
         (s1 := [Return (PyPair "AABB" (Some "6112"));
                 Return (PyPair "CC" (Some "9000"))]).
  - vm_compute. reflexivity.
  - left. reflexivity.
  - vm_compute. reflexivity.
  - right. reflexivity.
Defined.

(** Status 9000: the first response is the result and the second scripted
    response is never asked for. *)
Lemma send_apdu_no_chaining_witness :
  send select_mf 0
    [Return (PyPair "074F4EFFFF" (Some "9000"));
     Return (PyPair "CC" (Some "9000"))]
  = (Return ("074F4EFFFF", Some "9000"), [Return (PyPair "CC" (Some "9000"))],
     [EvRaw select_mf])
  /\ raw_calls
       (snd (send select_mf 0
               [Return (PyPair "074F4EFFFF" (Some "9000"));
                Return (PyPair "CC" (Some "9000"))]))
     = raw_calls [EvRaw select_mf].
Proof.
  apply (send_apdu_no_chaining _ Double.scripted_method 3 50 select_mf 0
           [Return (PyPair "074F4EFFFF" (Some "9000"));
            Return (PyPair "CC" (Some "9000"))]).
  - vm_compute. reflexivity.
  - vm_compute. discriminate.
  - vm_compute. discriminate.
Defined.

(** The guard against the uppercase pattern 6A8?: the status 9000 does not
    match, and the error carries the status as it came and the pattern in
    lower case.  And against a channel whose first transmission fails: the
    guard raises after that one transmission, the answer that a retry would
    have fetched still unplayed. *)
Lemma send_apdu_checksw_verdict_witness :
  checksw select_mf "6A8?" [ok9000]
  = (Raise (SwMatchError (Some "9000") "6a8?"), [], [EvRaw select_mf])
  /\ checksw select_mf "9000" [Raise ProtocolError; ok9000]
     = (Raise ProtocolError, [ok9000], [EvRaw select_mf]).
Proof.
  split.
  - rewrite (proj1 (send_apdu_checksw_verdict _ Double.scripted_method 3
                      Double.sw_match 51 0 select_mf "6A8?" [ok9000])).
    vm_compute. reflexivity.
  - apply (proj2 (send_apdu_checksw_verdict _ Double.scripted_method 3
                    Double.sw_match 51 49 select_mf "9000"
                    [Raise ProtocolError; ok9000])).
    reflexivity.
Defined.

(** The guard lets a matching status through, and reports a mismatch with
    the status as it came. *)
Example send_apdu_checksw_runs :
  checksw select_mf "9000" [Return (PyPair "074F4EFFFF" (Some "9000"))]
  = (Return ("074F4EFFFF", Some "9000"), [], [EvRaw select_mf])
  /\ checksw select_mf "9000" [Return (PyPair "" (Some "6A82"))]
     = (Raise (SwMatchError (Some "6A82") "9000"), [], [EvRaw select_mf]).
Proof. repeat split; vm_compute; reflexivity. Qed.

(** Uppercase 9F05 does not trigger the continuation. *)
Lemma send_apdu_trigger_case_sensitive_witness :
  (send select_mf 0
     [Return (PyPair "" (Some "9F05"));
      Return (PyPair "0011223344" (Some "9000"))]
   <> (Return ("", Some "9F05"),
       [Return (PyPair "0011223344" (Some "9000"))], [EvRaw select_mf])
   <-> Py.slice 0 2 "9F05" = "9f" \/ Py.slice 0 2 "9F05" = "61")
  /\ ("9F05" = "9F05" ->
      send select_mf 0
        [Return (PyPair "" (Some "9F05"));
         Return (PyPair "0011223344" (Some "9000"))]
      = (Return ("", Some "9F05"),
         [Return (PyPair "0011223344" (Some "9000"))], [EvRaw select_mf])).
Proof.
  apply (send_apdu_trigger_case_sensitive _ Double.scripted_method 3 50
           select_mf 0
           [Return (PyPair "" (Some "9F05"));
            Return (PyPair "0011223344" (Some "9000"))]).
  vm_compute. reflexivity.
Defined.

(** A response without a status word comes back as it is. *)
Lemma send_apdu_none_status_witness :
  send select_mf 0
    [Return (PyPair "00" None); Return (PyPair "CC" (Some "9000"))]
  = (Return ("00", None), [Return (PyPair "CC" (Some "9000"))],
     [EvRaw select_mf]).
Proof.
  apply (send_apdu_none_status _ Double.scripted_method 3 50 select_mf 0
           [Return (PyPair "00" None); Return (PyPair "CC" (Some "9000"))]).
  vm_compute. reflexivity.
Defined.

End Runs.

(** * Further properties of the send chain *)

Section FailsafeBudget.

Variable St : Type.
Variable raw : nat -> string -> St -> outcome pyval * St.
Variable log_frames : nat.

Local Abbreviation try_send_apdu_raw := (LinkBase.try_send_apdu_raw St raw).
Local Abbreviation send_apdu_failsafe :=
  (LinkBase.send_apdu_failsafe St raw log_frames).
Local Abbreviation failed_attempts := (LinkBase.failed_attempts St raw).
Local Abbreviation retry_message := LinkBase.retry_message.

(** X1: a retry budget of zero or less, negative ones included, is no
    budget: [send_apdu_failsafe] behaves as with budget 0 and makes exactly
    one raw transmission, whatever its outcome. *)
Theorem failsafe_nonpositive_budget depth d pdu (N : Z) s :
  (N <= 0)%Z ->
  send_apdu_failsafe depth pdu N s = send_apdu_failsafe depth pdu 0 s
  /\ snd (send_apdu_failsafe (S d) pdu N s) = [EvRaw pdu].
Proof.
  intros HN. split.
  - destruct depth as [|d0]; [reflexivity|].
    destruct (try_send_apdu_raw d0 pdu s) as [[[r|e] s1] t1] eqn:H.
    + now rewrite !(failsafe_returns _ _ _ _ _ _ _ _ _ _ H).
    + rewrite (failsafe_gives_up _ _ _ _ _ N _ _ _ _ H) by assumption.
      now rewrite (failsafe_gives_up _ _ _ _ _ 0 _ _ _ _ H) by lia.
  - destruct (try_send_apdu_raw d pdu s) as [[[r|e] s1] t1] eqn:H.
    + now rewrite (failsafe_returns _ _ _ _ _ N _ _ _ _ H).
    + now rewrite (failsafe_gives_up _ _ _ _ _ N _ _ _ _ H) by assumption.
Qed.

(** X2: the trace of a failsafe send is one transmission of the pdu
    followed, for each retry, by one log line naming the pdu and one more
    transmission of it; the retries number at most the budget, and each
    found room on the stack. *)
Theorem failsafe_logs_each_retry d pdu (N : Z) s :
  exists m,
    snd (send_apdu_failsafe (S d) pdu N s) = retry_trace pdu m
    /\ (Z.of_nat m <= Z.max 0 N)%Z
    /\ (0 < m -> m + log_frames <= d)%nat.
Proof.
  exact (failsafe_trace St raw log_frames pdu d N s).
Qed.

(** X3: a send that returns keeps its result under any larger budget: the
    same pair, the same final state and the same trace. *)
Theorem failsafe_budget_monotone depth pdu (N N' : Z) s r s' t :
  send_apdu_failsafe depth pdu N s = (Return r, s', t) ->
  (N <= N')%Z ->
  send_apdu_failsafe depth pdu N' s = (Return r, s', t).
Proof.
  intros Hr Hle.
  exact (failsafe_return_stable St raw log_frames pdu depth N N' s r s' t Hr Hle).
Qed.

(** X4: when a failsafe send raises, its run was a chain of failed
    transmissions, each made in the state the one before left, with a log
    line between them.  Either there were [N + 1] of them ([N] taken as 0
    when negative) and the exception and final state are those of the last
    one, not the first; or there were fewer, the stack had no room for the
    log call of the next retry, and the exception is [RecursionError]. *)
Theorem failsafe_raises_after_budget d pdu (N : Z) s e s' t :
  send_apdu_failsafe (S d) pdu N s = (Raise e, s', t) ->
  exists es,
    t = retry_trace pdu (List.length es)
    /\ raw_calls t = repeat pdu (List.length es + 1)
    /\ ((List.length es = Z.to_nat N
         /\ failed_attempts pdu d (es ++ [e]) s s')
        \/ ((List.length es < Z.to_nat N)%nat
            /\ e = RecursionError
            /\ (d - List.length es <= log_frames)%nat
            /\ exists e', failed_attempts pdu d (es ++ [e']) s s')).
Proof.
  intros Hr.
  destruct (failsafe_raise_inversion St raw log_frames pdu d N s e s' t Hr)
    as [es [Ht Hcases]].
  exists es. split; [assumption|]. split; [|assumption].
  subst t. rewrite raw_calls_retry_trace. f_equal. lia.
Qed.

End FailsafeBudget.

Section GuardFacts.

Variable St : Type.
Variable raw : nat -> string -> St -> outcome pyval * St.
Variable log_frames : nat.
Variable sw_match : option string -> string -> outcome bool.

Local Abbreviation send_apdu_failsafe :=
  (LinkBase.send_apdu_failsafe St raw log_frames).
Local Abbreviation send_apdu := (LinkBase.send_apdu St raw log_frames).
Local Abbreviation send_apdu_checksw :=
  (LinkBase.send_apdu_checksw St raw log_frames sw_match).

(** The guard adds no event and no change of state to its [send_apdu]. *)
Lemma send_apdu_checksw_frame d pdu sw s :
  snd (send_apdu_checksw (S d) pdu sw s) = snd (send_apdu d pdu 0 s)
  /\ snd (fst (send_apdu_checksw (S d) pdu sw s))
     = snd (fst (send_apdu d pdu 0 s)).
Proof.
  rewrite send_apdu_checksw_unfold.
  destruct (send_apdu d pdu 0 s) as [[[[data observed]|e] s1] t1]; [|now split].
  destruct (sw_match observed sw) as [[|]|e]; now split.
Qed.

Lemma send_apdu_raw_calls_le depth pdu (N : Z) s :
  (List.length (raw_calls (snd (send_apdu depth pdu N s)))
   <= 2 * (Z.to_nat N + 1))%nat.
Proof.
  destruct depth as [|d]; [simpl; lia|].
  pose proof (failsafe_raw_calls_le St raw log_frames d) as Hone.
  rewrite send_apdu_unfold. pose proof (Hone pdu N s) as H1.
  destruct (send_apdu_failsafe d pdu N s) as [[[[data [sw|]]|e] s1] t1];
    simpl in *; try lia.
  destruct ((Py.slice 0 2 sw =? "9f")%string || (Py.slice 0 2 sw =? "61")%string);
    simpl; [|lia].
  pose proof (Hone (Py.slice 0 2 pdu ++ "c00000" ++ Py.slice 2 4 sw)%string N s1)
    as H2.
  destruct (send_apdu_failsafe d _ N s1) as [[o sf] tf]. simpl in *.
  rewrite raw_calls_app, length_app. lia.
Qed.

Lemma send_apdu_raw_calls_ge d pdu (N : Z) s :
  (1 <= List.length (raw_calls (snd (send_apdu (S (S d)) pdu N s))))%nat.
Proof.
  rewrite send_apdu_unfold.
  destruct (failsafe_raw_calls St raw log_frames d pdu N s) as [m [Hm _]].
  destruct (send_apdu_failsafe (S d) pdu N s) as [[[[data [sw|]]|e] s1] t1];
    simpl in *; try (rewrite Hm; simpl; lia).
  destruct ((Py.slice 0 2 sw =? "9f")%string || (Py.slice 0 2 sw =? "61")%string);
    simpl; [|rewrite Hm; simpl; lia].
  destruct (send_apdu_failsafe (S d) _ N s1) as [[o sf] tf]. simpl.
  rewrite raw_calls_app, length_app, Hm. simpl. lia.
Qed.

(** X5: [send_apdu] raises nothing of its own.  What it raises was raised
    by its first failsafe send, with nothing sent after it, or by the
    failsafe send of the continuation command after a first response whose
    status word begins with ['9f'] or ['61']. *)
Theorem send_apdu_error_provenance d pdu (N : Z) s e s' t :
  send_apdu (S d) pdu N s = (Raise e, s', t) ->
  send_apdu_failsafe d pdu N s = (Raise e, s', t)
  \/ exists data sw s1 t1 t2,
      send_apdu_failsafe d pdu N s = (Return (data, Some sw), s1, t1)
      /\ (Py.slice 0 2 sw = "9f"%string \/ Py.slice 0 2 sw = "61"%string)
      /\ send_apdu_failsafe d
           (Py.slice 0 2 pdu ++ "c00000" ++ Py.slice 2 4 sw)%string N s1
         = (Raise e, s', t2)
      /\ t = t1 ++ t2.
Proof.
  rewrite send_apdu_unfold.
  destruct (send_apdu_failsafe d pdu N s) as [[[[data [sw|]]|e0] s1] t1] eqn:H;
    try discriminate; [|now left].
  destruct ((Py.slice 0 2 sw =? "9f")%string || (Py.slice 0 2 sw =? "61")%string)
    eqn:Hc; [|discriminate].
  apply chaining_test in Hc. intros Hr. right.
  destruct (send_apdu_failsafe d
              (Py.slice 0 2 pdu ++ "c00000" ++ Py.slice 2 4 sw)%string N s1)
    as [[o sf] tf] eqn:H2.
  simpl in Hr. injection Hr as -> -> <-.
  now exists data, sw, s1, t1, tf.
Qed.

(** The continuation command built from a pdu of at least two characters
    and a status word of at least four has ten. *)
Lemma continuation_length pdu sw :
  (2 <= String.length pdu)%nat ->
  (4 <= String.length sw)%nat ->
  String.length (Py.slice 0 2 pdu ++ "c00000" ++ Py.slice 2 4 sw)%string = 10%nat
  /\ Py.slice 8 10 (Py.slice 0 2 pdu ++ "c00000" ++ Py.slice 2 4 sw)%string
     = Py.slice 2 4 sw.
Proof.
  destruct pdu as [|a [|b pdu]]; simpl; try lia. intros _.
  destruct sw as [|c [|d [|x [|y sw]]]]; simpl; try lia. intros _.
  unfold Py.slice; simpl. destruct pdu, sw; split; reflexivity.
Qed.

(** X6: for a pdu of at least one byte and a first status word of at least
    two bytes that begins with ['9f'] or ['61'], the continuation command
    [send_apdu] sends is a five-byte command (ten hex characters) whose last
    byte is SW2 of the first response. *)
Theorem send_apdu_continuation_is_five_bytes d pdu (N : Z) s data sw s1 t1 :
  send_apdu_failsafe d pdu N s = (Return (data, Some sw), s1, t1) ->
  Py.slice 0 2 sw = "9f"%string \/ Py.slice 0 2 sw = "61"%string ->
  (2 <= String.length pdu)%nat ->
  (4 <= String.length sw)%nat ->
  exists pdu_gr r sf t2,
    send_apdu (S d) pdu N s = (r, sf, t1 ++ EvRaw pdu_gr :: t2)
    /\ String.length pdu_gr = 10%nat
    /\ Py.slice 8 10 pdu_gr = Py.slice 2 4 sw.
Proof.
  intros H Hsw Hp Hs. rewrite (send_apdu_chains _ _ _ _ _ _ _ _ _ _ _ H Hsw).
  destruct (failsafe_returned_ran St raw log_frames _ _ _ _ _ _ _ H) as [d' ->].
  set (pdu_gr := (Py.slice 0 2 pdu ++ "c00000" ++ Py.slice 2 4 sw)%string).
  destruct (failsafe_first_call St raw log_frames d' pdu_gr N s1) as [t2 Ht2].
  destruct (send_apdu_failsafe (S d') pdu_gr N s1) as [[r sf] tf].
  simpl in Ht2. subst tf.
  exists pdu_gr, r, sf, t2. split; [reflexivity|].
  now apply continuation_length.
Qed.

(** X7: [send_apdu_checksw] never retries and the check itself touches
    nothing: its trace and final state are those of [send_apdu] with budget
    0, and it makes at most two raw transmissions (the command and, at
    most, one continuation), and at least one when the stack has room for
    the three nested calls down to the raw one. *)
Theorem send_apdu_checksw_transmissions depth d pdu sw s :
  snd (send_apdu_checksw (S depth) pdu sw s) = snd (send_apdu depth pdu 0 s)
  /\ snd (fst (send_apdu_checksw (S depth) pdu sw s))
     = snd (fst (send_apdu depth pdu 0 s))
  /\ (List.length (raw_calls (snd (send_apdu_checksw (S depth) pdu sw s)))
      <= 2)%nat
  /\ (1 <= List.length
             (raw_calls (snd (send_apdu_checksw (S (S (S d))) pdu sw s)))
      <= 2)%nat.
Proof.
  destruct (send_apdu_checksw_frame depth pdu sw s) as [Ht Hs].
  split; [assumption|]. split; [assumption|]. split.
  - rewrite Ht. pose proof (send_apdu_raw_calls_le depth pdu 0 s).
    simpl in *. lia.
  - destruct (send_apdu_checksw_frame (S (S d)) pdu sw s) as [Ht' _].
    rewrite Ht'.
    pose proof (send_apdu_raw_calls_le (S (S d)) pdu 0 s).
    pose proof (send_apdu_raw_calls_ge d pdu 0 s). simpl in *. lia.
Qed.

(** X8: after a continuation the guard judges the continuation's status
    word, never the first one.  When the channel answers the command with a
    status word beginning with ['9f'] or ['61'] and then answers the
    continuation with [(data2, sw2)], the guard returns [(data2, sw2)] if
    [sw_match] accepts [sw2] and raises [SwMatchError (sw2, sw.lower())] if
    it rejects it, after exactly those two transmissions. *)
Theorem send_apdu_checksw_judges_final_status
  d pdu sw s data sw1 s1 data2 sw2 s2 verdict :
  raw d pdu s = (Return (PyPair data (Some sw1)), s1) ->
  Py.slice 0 2 sw1 = "9f"%string \/ Py.slice 0 2 sw1 = "61"%string ->
  raw d (Py.slice 0 2 pdu ++ "c00000" ++ Py.slice 2 4 sw1)%string s1
  = (Return (PyPair data2 sw2), s2) ->
  sw_match sw2 sw = Return verdict ->
  send_apdu_checksw (S (S (S d))) pdu sw s
  = (if verdict then Return (data2, sw2)
     else Raise (SwMatchError sw2 (Py.lower sw)),
     s2,
     [EvRaw pdu; EvRaw (Py.slice 0 2 pdu ++ "c00000" ++ Py.slice 2 4 sw1)%string]).
Proof.
  intros H1 Hsw H2 Hm.
  apply try_raw_pair in H1. apply try_raw_pair in H2.
  pose proof (failsafe_returns St raw log_frames d pdu 0 s _ _ _ H1) as F1.
  pose proof (failsafe_returns St raw log_frames d _ 0 s1 _ _ _ H2) as F2.
  rewrite send_apdu_checksw_unfold.
  rewrite (send_apdu_chains _ _ _ _ _ _ _ _ _ _ _ F1 Hsw), F2. simpl.
  rewrite Hm. now destruct verdict.
Qed.

(** X9: the guard is sound.  Whenever [send_apdu_checksw] returns a pair,
    [sw_match] accepted its status word against the caller's pattern, and
    the pair, state and trace are those of [send_apdu] with budget 0. *)
Theorem send_apdu_checksw_sound depth pdu sw s data observed s' t :
  send_apdu_checksw depth pdu sw s = (Return (data, observed), s', t) ->
  sw_match observed sw = Return true
  /\ send_apdu (Nat.pred depth) pdu 0 s = (Return (data, observed), s', t).
Proof.
  destruct depth as [|d]; [discriminate|]. simpl Nat.pred.
  rewrite send_apdu_checksw_unfold.
  destruct (send_apdu d pdu 0 s) as [[[[d0 o]|e] s1] t1]; [|discriminate].
  destruct (sw_match o sw) as [[|]|e] eqn:Hm; try discriminate.
  intros Hr. injection Hr as -> -> -> ->. now split.
Qed.

End GuardFacts.

Section PcscChain.

Variable Conn : Type.
Variable log_frames : nat.
Variable sw_match : option string -> string -> outcome bool.

Local Abbreviation raw := (PcscSimLink.send_apdu_raw Conn).

(** X10: on a [PcscSimLink] a failsafe send never transmits and always
    raises [RecursionError], leaving the connection as it was.  Its
    retries share the stack with the raw calls that exhaust it: called with
    [d + 1] frames left, it makes one attempt and then as many retries,
    each logged, as the budget [N] and the room [d - log_frames] for the log
    call both allow. *)
Theorem pcsc_failsafe_burns_budget (d : nat) pdu (N : Z) (c : Conn) :
  LinkBase.send_apdu_failsafe Conn raw log_frames (S d) pdu N c
  = (Raise RecursionError, c,
     retry_trace pdu (Nat.min (Z.to_nat N) (d - log_frames)))
  /\ LinkBase.send_apdu_failsafe Conn raw log_frames 0 pdu N c
     = (Raise RecursionError, c, []).
Proof.
  split; [apply pcsc_failsafe_run|reflexivity].
Qed.

(** X11: on a [PcscSimLink] the whole chain is dead: for every pdu, retry
    budget, expected pattern, matcher and stack depth, [send_apdu] and
    [send_apdu_checksw] raise [RecursionError] with the connection left as
    it was; the guard, when the stack lets it reach the raw call, makes one
    attempt, and it never gets a status word to judge. *)
Theorem pcsc_send_chain_raises (depth d : nat) pdu (N : Z) sw (c : Conn) :
  (exists t,
      LinkBase.send_apdu Conn raw log_frames depth pdu N c
      = (Raise RecursionError, c, t))
  /\ (exists t,
         LinkBase.send_apdu_checksw Conn raw log_frames sw_match depth pdu sw c
         = (Raise RecursionError, c, t))
  /\ LinkBase.send_apdu_checksw Conn raw log_frames sw_match (S (S (S d)))
       pdu sw c
     = (Raise RecursionError, c, [EvRaw pdu]).
Proof.
  assert (Hsend : forall depth0 N0, exists t,
             LinkBase.send_apdu Conn raw log_frames depth0 pdu N0 c
             = (Raise RecursionError, c, t)).
  { intros [|d0] N0; [now exists []|].
    destruct (pcsc_failsafe_raises Conn log_frames d0 pdu N0 c) as [t Ht].
    exists t. now rewrite send_apdu_unfold, Ht. }
  split; [apply Hsend|]. split.
  - destruct depth as [|d0]; [now exists []|].
    destruct (Hsend d0 0%Z) as [t Ht]. exists t.
    now rewrite send_apdu_checksw_unfold, Ht.
  - rewrite send_apdu_checksw_unfold, send_apdu_unfold.
    rewrite pcsc_failsafe_run. reflexivity.
Qed.

End PcscChain.
(** * The reader and connection methods of [PcscSimLink] *)

Section PcscLifecycle.

Variable W : Type.
Variable Reader : Type.
Variable Con : Type.
Variable Request : Type.
Variable readers : W -> Pcsc.res (list Reader) * W.
Variable createConnection : Reader -> W -> Pcsc.res Con * W.
Variable con_connect : Con -> option Z -> W -> Pcsc.res unit * W.
Variable con_disconnect : Con -> W -> Pcsc.res unit * W.
Variable con_getATR : Con -> W -> Pcsc.res (list Z) * W.
Variable CardRequest :
  list Reader -> option Z -> bool -> W -> Pcsc.res Request * W.
Variable waitforcard : Request -> W -> Pcsc.res unit * W.

Import Pcsc.

Local Abbreviation link := (Pcsc.link Reader Con).
Local Abbreviation connect :=
  (Pcsc.connect W Reader Con Request con_connect con_disconnect).
Local Abbreviation reset_card :=
  (Pcsc.reset_card W Reader Con Request con_connect con_disconnect).
Local Abbreviation wait_for_card :=
  (Pcsc.wait_for_card W Reader Con Request con_connect con_disconnect
     CardRequest waitforcard).
Local Abbreviation init :=
  (Pcsc.__init__ W Reader Con Request readers createConnection).
Local Abbreviation del := (Pcsc.__del__ W Reader Con Request con_disconnect).
Local Abbreviation attr_con := (Pcsc.attr_con Reader Con).
Local Abbreviation get_atr := (Pcsc.get_atr W Reader Con Request con_getATR).
Local Abbreviation init_with :=
  (Pcsc.init_with W Reader Con Request createConnection).

(** [connect], by the outcome of its two library calls. *)
Lemma connect_unfold (self : link) w :
  connect self w =
  match con_disconnect (_con self) w with
  | (Err e, w1) =>
      (Err match e with
           | Base CardConnectionException => Base ProtocolError
           | NoCardException => Base NoCardError
           | _ => e
           end, w1, [CallDisconnect (_con self)])
  | (Ok _, w1) =>
      match con_connect (_con self) (_protocol self) w1 with
      | (Err e, w2) =>
          (Err match e with
               | Base CardConnectionException => Base ProtocolError
               | NoCardException => Base NoCardError
               | _ => e
               end, w2,
           [CallDisconnect (_con self);
            CallConnect (_con self) (_protocol self)])
      | (Ok u, w2) =>
          (Ok u, w2,
           [CallDisconnect (_con self);
            CallConnect (_con self) (_protocol self)])
      end
  end.
Proof.
  unfold Pcsc.connect, catch, pbind, Pcsc.disconnect, lib.
  destruct (con_disconnect (_con self) w) as [[u|e] w1]; simpl.
  - destruct (con_connect (_con self) (_protocol self) w1) as [[u'|e] w2];
      simpl; [reflexivity|].
    destruct e as [[]| | | |]; reflexivity.
  - destruct e as [[]| | | |]; reflexivity.
Qed.

(** X12: [connect] never lets the library's [CardConnectionException] or
    [NoCardException] through, whichever of its two library calls raised
    it. *)
Theorem connect_never_leaks (self : link) w :
  fst (fst (connect self w)) <> Err (Base CardConnectionException)
  /\ fst (fst (connect self w)) <> Err NoCardException.
Proof.
  rewrite connect_unfold.
  destruct (con_disconnect (_con self) w) as [[u|e] w1].
  - destruct (con_connect (_con self) (_protocol self) w1) as [[u'|e] w2];
      simpl; [split; discriminate|].
    destruct e as [[]| | | |]; split; discriminate.
  - simpl. destruct e as [[]| | | |]; split; discriminate.
Qed.

(** X13: [connect] disconnects first, and opens the connection, with the
    protocol the link was built with, exactly when that disconnect
    returned; it returns exactly when both calls returned. *)
Theorem connect_disconnects_first (self : link) w :
  snd (connect self w)
  = CallDisconnect (_con self)
    :: (if is_ok (fst (con_disconnect (_con self) w))
        then [CallConnect (_con self) (_protocol self)] else [])
  /\ (is_ok (fst (fst (connect self w))) = true
      <-> is_ok (fst (con_disconnect (_con self) w)) = true
          /\ is_ok (fst (con_connect (_con self) (_protocol self)
                           (snd (con_disconnect (_con self) w)))) = true).
Proof.
  rewrite connect_unfold.
  destruct (con_disconnect (_con self) w) as [[u|e] w1]; simpl.
  - destruct (con_connect (_con self) (_protocol self) w1) as [[u'|e] w2];
      simpl; split; try reflexivity; split;
      try tauto; try discriminate; intros [_ H]; discriminate.
  - split; [reflexivity|]. split; [discriminate|]. intros [H _]. discriminate.
Qed.

(** X14: the first disconnect of [reset_card] is outside any [try]: what it
    raises reaches the caller as it is, where [connect] in the same state
    would raise [ProtocolError] for [CardConnectionException] and
    [NoCardError] for [NoCardException]. *)
Theorem reset_card_raises_untranslated (self : link) w e w1 :
  con_disconnect (_con self) w = (Err e, w1) ->
  reset_card self w = (Err e, w1, [CallDisconnect (_con self)])
  /\ (e = Base CardConnectionException ->
      connect self w
      = (Err (Base ProtocolError), w1, [CallDisconnect (_con self)]))
  /\ (e = NoCardException ->
      connect self w
      = (Err (Base NoCardError), w1, [CallDisconnect (_con self)])).
Proof.
  intros H. split; [|split].
  - unfold Pcsc.reset_card, pbind, Pcsc.disconnect, lib. now rewrite H.
  - intros ->. now rewrite connect_unfold, H.
  - intros ->. now rewrite connect_unfold, H.
Qed.

(** X15: when [reset_card] returns, it returns 1, and it has disconnected
    twice (once itself, once inside [connect]) and then connected with the
    link's protocol. *)
Theorem reset_card_returns_one (self : link) w v w' t :
  reset_card self w = (Ok v, w', t) ->
  v = 1%Z
  /\ t = [CallDisconnect (_con self); CallDisconnect (_con self);
          CallConnect (_con self) (_protocol self)].
Proof.
  unfold Pcsc.reset_card, pbind at 1. unfold Pcsc.disconnect at 1, lib at 1.
  destruct (con_disconnect (_con self) w) as [[u|e] w1]; [|discriminate].
  unfold pafter at 1, pbind. rewrite connect_unfold.
  destruct (con_disconnect (_con self) w1) as [[u1|e] w2]; [|discriminate].
  destruct (con_connect (_con self) (_protocol self) w2) as [[u2|e] w3];
    [|discriminate].
  simpl. intros H. injection H as <- <- <-. now split.
Qed.

(** X16: when the card request times out, [wait_for_card] raises
    [NoCardError] and touches the connection not at all: the request, for
    this link's reader alone, and the wait are its only library calls. *)
Theorem wait_for_card_timeout (self : link) timeout newcardonly w cr w1 w2 :
  CardRequest [_reader self] timeout newcardonly w = (Ok cr, w1) ->
  waitforcard cr w1 = (Err CardRequestTimeoutException, w2) ->
  wait_for_card self timeout newcardonly w
  = (Err (Base NoCardError), w2,
     [CallCardRequest [_reader self] timeout newcardonly; CallWaitForCard cr]).
Proof.
  intros H1 H2. unfold Pcsc.wait_for_card, pbind, catch, lib.
  now rewrite H1, H2.
Qed.

(** X17: when the card request is served, [wait_for_card] goes on to
    [connect]: its outcome and final state are those of [connect] in the
    state the wait left, after the request and the wait. *)
Theorem wait_for_card_then_connects (self : link) timeout newcardonly w cr w1 w2 :
  CardRequest [_reader self] timeout newcardonly w = (Ok cr, w1) ->
  waitforcard cr w1 = (Ok tt, w2) ->
  wait_for_card self timeout newcardonly w
  = pafter [CallCardRequest [_reader self] timeout newcardonly;
            CallWaitForCard cr]
           (connect self w2)
  /\ fst (fst (wait_for_card self timeout newcardonly w))
     <> Err (Base CardConnectionException)
  /\ fst (fst (wait_for_card self timeout newcardonly w))
     <> Err NoCardException.
Proof.
  intros H1 H2.
  assert (Heq : wait_for_card self timeout newcardonly w
                = pafter [CallCardRequest [_reader self] timeout newcardonly;
                          CallWaitForCard cr] (connect self w2)).
  { unfold Pcsc.wait_for_card, pbind at 1 2. unfold catch, lib.
    rewrite H1. simpl. rewrite H2. simpl.
    destruct (connect self w2) as [[o wf] tf]. reflexivity. }
  split; [assumption|]. rewrite Heq.
  pose proof (connect_unfold self w2) as Hc.
  destruct (connect self w2) as [[o wf] tf]. simpl.
  destruct (con_disconnect (_con self) w2) as [[u|e] w3].
  - destruct (con_connect (_con self) (_protocol self) w3) as [[u'|e] w4];
      injection Hc as -> _ _; [split; discriminate|].
    destruct e as [[]| | | |]; split; discriminate.
  - injection Hc as -> _ _. destruct e as [[]| | | |]; split; discriminate.
Qed.

Lemma init_picks n protocol w r w1 rd :
  readers w = (Ok r, w1) ->
  (n < Z.of_nat (List.length r))%Z ->
  index r n = Ok rd ->
  init n protocol [] w = init_with protocol rd w1.
Proof.
  intros Hr Hn Hi.
  unfold Pcsc.__init__, pbind, object_init, pret, lib, plift, Pcsc.init_with.
  rewrite Hr. simpl. destruct (Z.geb_spec n (Z.of_nat (List.length r))); [lia|].
  rewrite Hi. simpl.
  destruct (createConnection rd w1) as [[con|e] w2]; reflexivity.
Qed.


(** X19: [__del__] never raises, on any instance.  On one that [__init__]
    built it calls the connection's disconnect once and returns, whatever
    that call did; on one whose [__init__] raised, which has no [_con], it
    returns without a library call and leaves the library's world as it
    was. *)
Theorem del_never_raises (built : res link) w :
  del (attr_con built) w
  = match built with
    | Ok self =>
        (Ok tt, snd (con_disconnect (_con self) w),
         [CallDisconnect (_con self)])
    | Err _ => (Ok tt, w, [])
    end.
Proof.
  unfold Pcsc.__del__, catch, lib, praise, pret.
  destruct built as [self|e]; simpl; [|reflexivity].
  destruct (con_disconnect (_con self) w) as [[[]|e] w1]; reflexivity.
Qed.

(** X20: what [get_atr] returns is the ATR the connection gave, and every
    value in it is a byte; an ATR with a value outside [0 .. 255] is not
    returned. *)
Theorem get_atr_bytes (self : link) w atr w' t :
  get_atr self w = (Ok atr, w', t) ->
  con_getATR (_con self) w = (Ok atr, w')
  /\ Forall (fun x => (0 <= x < 256)%Z) atr.
Proof.
  unfold Pcsc.get_atr, pbind, lib, plift, bytes.
  destruct (con_getATR (_con self) w) as [[l|e] w1]; [|discriminate].
  simpl. destruct (forallb _ l) eqn:Hb; [|discriminate].
  intros H. injection H as <- <- _. split; [reflexivity|].
  apply Forall_forall. intros x Hx.
  rewrite forallb_forall in Hb. specialize (Hb x Hx). lia.
Qed.

End PcscLifecycle.

(** ** Concrete runs of the further properties *)

Section MoreRuns.

Import Pcsc.

Local Abbreviation select_mf := "A0A40000023F00".
Local Abbreviation ok9000 := (Return (PyPair "" (Some "9000"))).
Local Abbreviation world := (list (option exc)).
Local Abbreviation card := (Link (Reader := string) (Con := string) None "r0" "r0").

(** As before: a scripted subclass, [logging.info] three calls deep, fifty
    frames left for a failsafe send. *)
Local Abbreviation failsafe :=
  (LinkBase.send_apdu_failsafe _ Double.scripted_method 3 50).
Local Abbreviation send :=
  (LinkBase.send_apdu _ Double.scripted_method 3 51).
Local Abbreviation checksw :=
  (LinkBase.send_apdu_checksw _ Double.scripted_method 3 Double.sw_match 52).

(** A budget of -3 is a budget of 0. *)
Lemma failsafe_nonpositive_budget_witness :
  failsafe select_mf (-3) [Raise ProtocolError; ok9000]
  = failsafe select_mf 0 [Raise ProtocolError; ok9000]
  /\ snd (failsafe select_mf (-3) [Raise ProtocolError; ok9000])
     = [EvRaw select_mf].
Proof.
  apply (failsafe_nonpositive_budget _ Double.scripted_method 3 50 49
           select_mf (-3) [Raise ProtocolError; ok9000]).
  lia.
Defined.

(** One glitch, recovered with budget 1, hence with budget 5. *)
Lemma failsafe_budget_monotone_witness :
  failsafe select_mf 5 [Raise ProtocolError; ok9000]
  = (Return ("", Some "9000"), [], retry_trace select_mf 1).
Proof.
  apply (failsafe_budget_monotone _ Double.scripted_method 3 50 select_mf 1 5
           [Raise ProtocolError; ok9000]).
  - vm_compute. reflexivity.
  - lia.
Defined.

(** The card is missing, then the link breaks: with budget 1 the caller
    sees the second fault, [ProtocolError], in the state the second
    transmission left. *)
Lemma failsafe_raises_after_budget_witness :
  failsafe select_mf 1 [Raise NoCardError; Raise ProtocolError; ok9000]
  = (Raise ProtocolError, [ok9000], retry_trace select_mf 1)
  /\ exists es,
      retry_trace select_mf 1 = retry_trace select_mf (List.length es)
      /\ raw_calls (retry_trace select_mf 1)
         = repeat select_mf (List.length es + 1)
      /\ ((List.length es = Z.to_nat 1
           /\ LinkBase.failed_attempts _ Double.scripted_method select_mf 49
                (es ++ [ProtocolError])
                [Raise NoCardError; Raise ProtocolError; ok9000] [ok9000])
          \/ ((List.length es < Z.to_nat 1)%nat
              /\ ProtocolError = RecursionError
              /\ (49 - List.length es <= 3)%nat
              /\ exists e',
                  LinkBase.failed_attempts _ Double.scripted_method select_mf
                    49 (es ++ [e'])
                    [Raise NoCardError; Raise ProtocolError; ok9000]
                    [ok9000])).
Proof.
  split; [vm_compute; reflexivity|].
  apply (failsafe_raises_after_budget _ Double.scripted_method 3 49 select_mf 1
           [Raise NoCardError; Raise ProtocolError; ok9000]).
  vm_compute. reflexivity.
Defined.

(** The continuation is what fails. *)
Lemma send_apdu_error_provenance_witness :
  failsafe select_mf 0
    [Return (PyPair "" (Some "9f05")); Raise ProtocolError]
  = (Raise ProtocolError, [], [EvRaw select_mf; EvRaw "A0c0000005"])
  \/ exists data sw s1 t1 t2,
      failsafe select_mf 0
        [Return (PyPair "" (Some "9f05")); Raise ProtocolError]
      = (Return (data, Some sw), s1, t1)
      /\ (Py.slice 0 2 sw = "9f" \/ Py.slice 0 2 sw = "61")
      /\ failsafe
           (Py.slice 0 2 select_mf ++ "c00000" ++ Py.slice 2 4 sw)%string 0 s1
         = (Raise ProtocolError, [], t2)
      /\ [EvRaw select_mf; EvRaw "A0c0000005"] = t1 ++ t2.
Proof.
  apply (send_apdu_error_provenance _ Double.scripted_method 3 50 select_mf 0
           [Return (PyPair "" (Some "9f05")); Raise ProtocolError]).
  vm_compute. reflexivity.
Defined.

Lemma send_apdu_continuation_is_five_bytes_witness :
  exists pdu_gr r sf t2,
    send select_mf 0 [Return (PyPair "" (Some "6110")); ok9000]
    = (r, sf, [EvRaw select_mf] ++ EvRaw pdu_gr :: t2)
    /\ String.length pdu_gr = 10%nat
    /\ Py.slice 8 10 pdu_gr = Py.slice 2 4 "6110".
Proof.
  apply (send_apdu_continuation_is_five_bytes _ Double.scripted_method 3 50
           select_mf 0
           [Return (PyPair "" (Some "6110")); ok9000] "" "6110" [ok9000]).
  - vm_compute. reflexivity.
  - right. reflexivity.
  - simpl. lia.
  - simpl. lia.
Defined.

(** The pattern 9f?? would match the first status word 9f05; the guard
    judges the continuation's 6a82 and raises. *)
Lemma send_apdu_checksw_judges_final_status_witness :
  checksw select_mf "9f??"
    [Return (PyPair "" (Some "9f05")); Return (PyPair "" (Some "6a82"))]
  = (Raise (SwMatchError (Some "6a82") (Py.lower "9f??")), [],
     [EvRaw select_mf; EvRaw "A0c0000005"]).
Proof.
  apply (send_apdu_checksw_judges_final_status _ Double.scripted_method 3
           Double.sw_match 49 select_mf "9f??"
           [Return (PyPair "" (Some "9f05")); Return (PyPair "" (Some "6a82"))]
           "" "9f05" [Return (PyPair "" (Some "6a82"))] "" (Some "6a82") []
           false).
  - reflexivity.
  - left. reflexivity.
  - reflexivity.
  - vm_compute. reflexivity.
Defined.

Lemma send_apdu_checksw_sound_witness :
  Double.sw_match (Some "9000") "90??" = Return true
  /\ send select_mf 0 [Return (PyPair "074F4EFFFF" (Some "9000"))]
     = (Return ("074F4EFFFF", Some "9000"), [], [EvRaw select_mf]).
Proof.
  apply (send_apdu_checksw_sound _ Double.scripted_method 3 Double.sw_match 52
           select_mf "90??" [Return (PyPair "074F4EFFFF" (Some "9000"))]).
  vm_compute. reflexivity.
Defined.

(** On a [PcscSimLink] with a thousand frames left and a budget of five
    the send retries five times; with a budget of 2000 the stack ends the
    retries first. *)
Example pcsc_failsafe_runs :
  LinkBase.send_apdu_failsafe nat (PcscSimLink.send_apdu_raw nat) 3 1000
    select_mf 5 0%nat
  = (Raise RecursionError, 0%nat, retry_trace select_mf 5)
  /\ LinkBase.send_apdu_failsafe nat (PcscSimLink.send_apdu_raw nat) 3 1000
       select_mf 2000 0%nat
     = (Raise RecursionError, 0%nat, retry_trace select_mf 996).
Proof. split; vm_compute; reflexivity. Qed.

(** [__del__] on a link that was built, and on one whose [__init__] found
    no reader. *)
Example del_runs :
  __del__ world string string unit d_disconnect (attr_con string string (Ok card))
    [Some (Base CardConnectionException)]
  = (Ok tt, [], [CallDisconnect "r0"])
  /\ __del__ world string string unit d_disconnect
       (attr_con string string
          (fst (fst (__init__ world string string unit (d_readers [])
                       d_createConnection 0 None [] []))))
       []
     = (Ok tt, [], []).
Proof. split; vm_compute; reflexivity. Qed.

(** The reader reports a connection fault on disconnect. *)
Lemma reset_card_raises_untranslated_witness :
  reset_card world string string unit d_connect d_disconnect card
    [Some (Base CardConnectionException)]
  = (Err (Base CardConnectionException), [], [CallDisconnect "r0"])
  /\ (Base CardConnectionException = Base CardConnectionException ->
      connect world string string unit d_connect d_disconnect card
        [Some (Base CardConnectionException)]
      = (Err (Base ProtocolError), [], [CallDisconnect "r0"]))
  /\ (Base CardConnectionException = NoCardException ->
      connect world string string unit d_connect d_disconnect card
        [Some (Base CardConnectionException)]
      = (Err (Base NoCardError), [], [CallDisconnect "r0"])).
Proof.
  apply (reset_card_raises_untranslated world string string unit
           d_connect d_disconnect card [Some (Base CardConnectionException)]).
  reflexivity.
Defined.

(** A healthy reader: the reset returns 1 after three library calls. *)
Lemma reset_card_returns_one_witness :
  reset_card world string string unit d_connect d_disconnect card []
  = (Ok 1%Z, [],
     [CallDisconnect "r0"; CallDisconnect "r0"; CallConnect "r0" None])
  /\ 1%Z = 1%Z
  /\ [CallDisconnect "r0"; CallDisconnect "r0"; CallConnect "r0" None]
     = [CallDisconnect (Reader := string) (Request := unit) (_con card);
        CallDisconnect (_con card);
        CallConnect (_con card) (_protocol card)].
Proof.
  split; [vm_compute; reflexivity|].
  apply (reset_card_returns_one world string string unit
           d_connect d_disconnect card [] 1%Z []).
  vm_compute. reflexivity.
Defined.

Lemma wait_for_card_timeout_witness :
  wait_for_card world string string unit d_connect d_disconnect
    d_CardRequest d_waitforcard card (Some 10%Z) false
    [None; Some CardRequestTimeoutException]
  = (Err (Base NoCardError), [],
     [CallCardRequest ["r0"] (Some 10%Z) false; CallWaitForCard tt]).
Proof.
  apply (wait_for_card_timeout world string string unit d_connect d_disconnect
           d_CardRequest d_waitforcard card (Some 10%Z) false
           [None; Some CardRequestTimeoutException] tt
           [Some CardRequestTimeoutException] []).
  - reflexivity.
  - reflexivity.
Defined.

(** A card arrives, but connecting finds none: [NoCardError]. *)
Lemma wait_for_card_then_connects_witness :
  wait_for_card world string string unit d_connect d_disconnect
    d_CardRequest d_waitforcard card None true
    [None; None; None; Some NoCardException]
  = pafter [CallCardRequest ["r0"] None true; CallWaitForCard tt]
           (connect world string string unit d_connect d_disconnect card
              [None; Some NoCardException])
  /\ fst (fst (wait_for_card world string string unit d_connect d_disconnect
                 d_CardRequest d_waitforcard card None true
                 [None; None; None; Some NoCardException]))
     <> Err (Base CardConnectionException)
  /\ fst (fst (wait_for_card world string string unit d_connect d_disconnect
                 d_CardRequest d_waitforcard card None true
                 [None; None; None; Some NoCardException]))
     <> Err NoCardException.
Proof.
  apply (wait_for_card_then_connects world string string unit d_connect
           d_disconnect d_CardRequest d_waitforcard card None true
           [None; None; None; Some NoCardException] tt
           [None; None; Some NoCardException]).
  - reflexivity.
  - reflexivity.
Defined.


Example init_runs :
  __init__ world string string unit (d_readers ["r0"; "r1"])
    d_createConnection (-1) None [] []
  = (Ok (Link None "r1" "r1"), [],
     [CallReaders; CallCreateConnection "r1"])
  /\ __init__ world string string unit (d_readers ["r0"; "r1"])
       d_createConnection 2 None [] []
     = (Err (Base ReaderError), [], [CallReaders])
  /\ __init__ world string string unit (d_readers [])
       d_createConnection 0 None [] []
     = (Err (Base ReaderError), [], [CallReaders])
  /\ __init__ world string string unit (d_readers ["r0"; "r1"])
       d_createConnection (-3) None [] []
     = (Err IndexError, [], [CallReaders]).
Proof. repeat split; vm_compute; reflexivity. Qed.

Lemma get_atr_bytes_witness :
  get_atr world string string unit (d_getATR [59; 159; 150]%Z) card []
  = (Ok [59; 159; 150]%Z, [], [CallGetATR "r0"])
  /\ d_getATR [59; 159; 150]%Z "r0" [] = (Ok [59; 159; 150]%Z, [])
  /\ Forall (fun x => (0 <= x < 256)%Z) [59; 159; 150]%Z.
Proof.
  split; [vm_compute; reflexivity|].
  apply (get_atr_bytes world string string unit (d_getATR [59; 159; 150]%Z)
           card [] [59; 159; 150]%Z [] [CallGetATR "r0"]).
  vm_compute. reflexivity.
Defined.

End MoreRuns.

(** ** What [_send_apdu_raw] hands back *)

Section PcscRaw.

Variable Conn : Type.
Variable transmit : list Z -> Conn -> outcome (list Z * Z * Z) * Conn.
Variable h2i : string -> outcome (list Z).
Variable i2h : list Z -> string.

Local Abbreviation _send_apdu_raw :=
  (PcscSimLink._send_apdu_raw Conn transmit h2i i2h).

(** X21: whatever [_send_apdu_raw] returns is a [(data, sw)] pair with a
    status word, never [None] in either place: the pdu decoded, the
    connection transmitted the decoded bytes once, and the pair is the hex of
    the response data and of [[sw1, sw2]]. *)
Theorem pcsc_raw_returns_pair pdu c v c1 :
  _send_apdu_raw pdu c = (Return v, c1) ->
  exists apdu data sw1 sw2,
    h2i pdu = Return apdu
    /\ transmit apdu c = (Return (data, sw1, sw2), c1)
    /\ v = PyPair (i2h data) (Some (i2h [sw1; sw2])).
Proof.
  unfold PcscSimLink._send_apdu_raw.
  destruct (h2i pdu) as [apdu|e]; [|discriminate].
  destruct (transmit apdu c) as [[[[data sw1] sw2]|e] c'] eqn:Ht; [|discriminate].
  intros H. injection H as <- <-. now exists apdu, data, sw1, sw2.
Qed.

(** X22: [_send_apdu_raw] translates no exception.  What it raises was
    raised by the decoding of the pdu, and then nothing was transmitted and
    the connection is as it was, or by the connection's transmit, whose
    exception the caller gets as it is. *)
Theorem pcsc_raw_raises_untranslated pdu c e c1 :
  _send_apdu_raw pdu c = (Raise e, c1) ->
  (h2i pdu = Raise e /\ c1 = c)
  \/ exists apdu, h2i pdu = Return apdu /\ transmit apdu c = (Raise e, c1).
Proof.
  unfold PcscSimLink._send_apdu_raw.
  destruct (h2i pdu) as [apdu|e0].
  - destruct (transmit apdu c) as [[[[data sw1] sw2]|e0] c'] eqn:Ht;
      [discriminate|].
    intros H. injection H as <- <-. right. now exists apdu.
  - intros H. injection H as <- <-. now left.
Qed.

End PcscRaw.

Section RawRuns.

Lemma pcsc_raw_returns_pair_witness :
  exists apdu data sw1 sw2,
    Double.h2i "A0A40000023F00" = Return apdu
    /\ Double.answering [0; 17]%Z 144 0 apdu 0%nat
       = (Return (data, sw1, sw2), 1%nat)
    /\ PyPair "0011" (Some "9000")
       = PyPair (Double.i2h data) (Some (Double.i2h [sw1; sw2])).
Proof.
  apply (pcsc_raw_returns_pair nat (Double.answering [0; 17]%Z 144 0)
           Double.h2i Double.i2h "A0A40000023F00" 0%nat).
  vm_compute. reflexivity.
Defined.

(** A pdu that is not hex never reaches the card. *)
Lemma pcsc_raw_raises_untranslated_witness :
  (Double.h2i "A0ZZ" = Raise ValueError /\ 0%nat = 0%nat)
  \/ exists apdu,
      Double.h2i "A0ZZ" = Return apdu
      /\ Double.answering [] 144 0 apdu 0%nat = (Raise ValueError, 0%nat).
Proof.
  apply (pcsc_raw_raises_untranslated nat (Double.answering [] 144 0)
           Double.h2i Double.i2h "A0ZZ" 0%nat).
  vm_compute. reflexivity.
Defined.

End RawRuns.
